(** * ICM20948_mag: the AK09916 magnetometer behind the ICM20948 I2C master

    A shallow embedding of [src/drivers/imu/icm20948/ICM20948_mag.cpp].
    The driver talks to three collaborators: the parent ICM20948 driver
    (host register writes and read-modify-writes), the bus interface
    (block reads) and the magnetometer publisher [_px4_mag].  Every call on
    a collaborator is recorded, in program order, in a trace; bytes read
    from the bus come from an input stream held in the world state. *)

From Stdlib Require Import ZArith List Bool Lia QArith.
From Stdlib Require Import Floats.SpecFloat.
From Equations Require Import Equations.
From Equations.Prop Require Import Logic.
Import ListNotations.

Local Open Scope Z_scope.

(** ** Machine integers and binary32 *)

(** Conversion to [uint8_t]. *)
Definition u8 (z : Z) : Z := z mod 256.

(** C [float] is IEEE binary32: 24 bits of precision, [emax = 128]. *)
Definition float32 : Type := spec_float.
Definition f32_prec : Z := 24.
Definition f32_emax : Z := 128.

(** [(float) n] for an [int] n. *)
Definition f32_of_int (n : Z) : float32 :=
  binary_normalize f32_prec f32_emax n 0 false.
Definition f32_div (a b : float32) : float32 := SFdiv f32_prec f32_emax a b.
Definition f32_add (a b : float32) : float32 := SFadd f32_prec f32_emax a b.

(** The rational denoted by a finite binary32 value. *)
Definition f32_to_Q (f : float32) : Q :=
  match f with
  | S754_finite s m e =>
      (inject_Z (cond_Zopp s (Zpos m)) * Qpower (2 # 1) e)%Q
  | _ => 0%Q
  end.

Definition f32_is_finite (f : float32) : bool :=
  match f with
  | S754_finite _ _ _ | S754_zero _ => true
  | _ => false
  end.

(** ** Constants of the headers

    [ICM20948_mag.hpp], [ICM20948.hpp] and the errno definitions give the
    register addresses, bit masks and command values.  The driver code is
    modelled for any values of them. *)
Class Header : Type := {
  OK : Z;
  EIO : Z;
  (* host (ICM20948) registers *)
  ICMREG_20948_USER_CTRL : Z;
  ICMREG_20948_I2C_MST_CTRL : Z;
  ICMREG_20948_I2C_SLV0_ADDR : Z;
  ICMREG_20948_I2C_SLV0_REG : Z;
  ICMREG_20948_I2C_SLV0_CTRL : Z;
  ICMREG_20948_I2C_SLV0_DO : Z;
  ICMREG_20948_EXT_SLV_SENS_DATA_00 : Z;
  (* host bit masks *)
  BIT_I2C_MST_EN : Z;
  BIT_I2C_MST_RST : Z;
  BIT_I2C_MST_P_NSR : Z;
  ICM_BITS_I2C_MST_CLOCK_400HZ : Z;
  BIT_I2C_READ_FLAG : Z;
  BIT_I2C_SLV0_EN : Z;
  (* AK09916 *)
  AK09916_I2C_ADDR : Z;
  AK09916_DEVICE_ID : Z;
  AK09916REG_WIA : Z;
  AK09916REG_ST1 : Z;
  AK09916REG_CNTL1 : Z;
  AK09916REG_CNTL2 : Z;
  AK09916REG_CNTL3 : Z;
  AK09916REG_ASAX : Z;
  AK09916_RESET : Z;
  AK09916_FUZE_MODE : Z;
  AK09916_16BIT_ADC : Z;
  AK09916_POWERDOWN_MODE : Z;
  AK09916_CNTL2_CONTINOUS_MODE_100HZ : Z;
  AK09916_ST1_DRDY : Z;
  (* sizeof(ak09916_regs) *)
  sizeof_ak09916_regs : Z
}.

(** One assignment of the constants, after the register maps of the
    ICM-20948 and AK09916 data sheets, with the bank of a host register in
    bits 8 and 9 of its address.  The theorems hold for every assignment;
    this one gives them concrete instances. *)
Definition datasheet : Header := {|
  OK := 0;
  EIO := 5;
  ICMREG_20948_USER_CTRL := 0x003;
  ICMREG_20948_I2C_MST_CTRL := 0x301;
  ICMREG_20948_I2C_SLV0_ADDR := 0x303;
  ICMREG_20948_I2C_SLV0_REG := 0x304;
  ICMREG_20948_I2C_SLV0_CTRL := 0x305;
  ICMREG_20948_I2C_SLV0_DO := 0x306;
  ICMREG_20948_EXT_SLV_SENS_DATA_00 := 0x03B;
  BIT_I2C_MST_EN := 0x20;
  BIT_I2C_MST_RST := 0x02;
  BIT_I2C_MST_P_NSR := 0x10;
  ICM_BITS_I2C_MST_CLOCK_400HZ := 0x07;
  BIT_I2C_READ_FLAG := 0x80;
  BIT_I2C_SLV0_EN := 0x80;
  AK09916_I2C_ADDR := 0x0C;
  AK09916_DEVICE_ID := 0x09;
  AK09916REG_WIA := 0x01;
  AK09916REG_ST1 := 0x10;
  AK09916REG_CNTL1 := 0x30;
  AK09916REG_CNTL2 := 0x31;
  AK09916REG_CNTL3 := 0x32;
  AK09916REG_ASAX := 0x60;
  AK09916_RESET := 0x01;
  AK09916_FUZE_MODE := 0x0F;
  AK09916_16BIT_ADC := 0x10;
  AK09916_POWERDOWN_MODE := 0x00;
  AK09916_CNTL2_CONTINOUS_MODE_100HZ := 0x08;
  AK09916_ST1_DRDY := 0x01;
  sizeof_ak09916_regs := 8
|}.

(** ** Data *)

(** [struct ak09916_regs]: one status + data frame of the magnetometer. *)
Record ak09916_regs : Type := {
  st1 : Z;   (* uint8_t *)
  x : Z;     (* int16_t *)
  y : Z;     (* int16_t *)
  z : Z;     (* int16_t *)
  st2 : Z    (* uint8_t *)
}.

(** Calls on the collaborators, as the driver issues them. *)
Inductive Event : Type :=
| HostWriteReg (reg value : Z)                       (* _parent->write_reg *)
| HostModifyReg (reg clearbits setbits : Z)          (* _parent->modify_reg *)
| HostModifyCheckedReg (reg clearbits setbits : Z)   (* _parent->modify_checked_reg *)
| HostInterfaceRead (reg : Z) (count : nat)          (* _parent->_interface->read *)
| InterfaceRead (reg : Z) (count : nat)              (* _interface->read *)
| Usleep (us : Z)                                    (* px4_usleep *)
| LogWarnBadId (id retries : Z)                      (* PX4_WARN *)
| LogErrDisabled                                     (* PX4_ERR *)
| MagSetExternal (external : bool)                   (* _px4_mag.set_external *)
| MagSetTemperature (temperature : float32)          (* _px4_mag.set_temperature *)
| MagUpdate (timestamp x y z : Z)                    (* _px4_mag.update *)
| MagSetSensitivity (x y z : float32).               (* _px4_mag.set_sensitivity *)

(** The state the driver runs in: the fields of the parent that it reads,
    its own performance counters, the bytes the bus will deliver, and the
    trace of calls made so far. *)
Record World : Type := mkWorld {
  parent_is_external : bool;
  parent_last_temperature : float32;
  mag_overruns : Z;
  mag_overflows : Z;
  mag_errors : Z;
  bus_rx : nat -> Z;
  bus_pos : nat;
  trace : list Event
}.

(** Append calls to the trace. *)
Definition emits (evs : list Event) (w : World) : World :=
  mkWorld (parent_is_external w) (parent_last_temperature w)
          (mag_overruns w) (mag_overflows w) (mag_errors w)
          (bus_rx w) (bus_pos w) (trace w ++ evs).

(** Consume [n] bytes of bus input. *)
Definition advance (n : nat) (w : World) : World :=
  mkWorld (parent_is_external w) (parent_last_temperature w)
          (mag_overruns w) (mag_overflows w) (mag_errors w)
          (bus_rx w) (bus_pos w + n)%nat (trace w).

(** The [i]-th byte the bus delivers from the current position on. *)
Definition rx_byte (w : World) (i : nat) : Z := u8 (bus_rx w (bus_pos w + i)%nat).

(** ** A state monad over [World] *)

Definition M (A : Type) : Type := World -> A * World.

Definition ret {A} (a : A) : M A := fun w => (a, w).
Definition bind {A B} (m : M A) (k : A -> M B) : M B :=
  fun w => let (a, w1) := m w in k a w1.

Declare Scope drv_scope.
Delimit Scope drv_scope with drv.
Notation "x <- m ;; k" := (bind m (fun x => k))
  (at level 61, m at next level, right associativity) : drv_scope.
Notation "m ;; k" := (bind m (fun _ => k))
  (at level 61, right associativity) : drv_scope.
Local Open Scope drv_scope.

Definition emit (e : Event) : M unit := fun w => (tt, emits [e] w).

(** ** Collaborator calls *)

(** [_parent->write_reg(unsigned reg, uint8_t value)]. *)
Definition parent_write_reg (reg value : Z) : M unit :=
  emit (HostWriteReg reg (u8 value)).

(** [_parent->modify_reg(unsigned reg, uint8_t clearbits, uint8_t setbits)]. *)
Definition parent_modify_reg (reg clearbits setbits : Z) : M unit :=
  emit (HostModifyReg reg (u8 clearbits) (u8 setbits)).

(** [_parent->modify_checked_reg(unsigned reg, uint8_t clearbits, uint8_t setbits)]. *)
Definition parent_modify_checked_reg (reg clearbits setbits : Z) : M unit :=
  emit (HostModifyCheckedReg reg (u8 clearbits) (u8 setbits)).

Definition px4_usleep (us : Z) : M unit := emit (Usleep us).

(** The next [count] bytes of the bus input. *)
Definition rx_bytes (w : World) (count : nat) : list Z :=
  map (rx_byte w) (seq 0 count).

(** [_parent->_interface->read(reg, buf, count)]. *)
Definition parent_interface_read (reg : Z) (count : nat) : M (list Z) :=
  fun w => (rx_bytes w count, advance count (emits [HostInterfaceRead reg count] w)).

(** [_interface->read(reg, buf, count)]. *)
Definition interface_read (reg : Z) (count : nat) : M (list Z) :=
  fun w => (rx_bytes w count, advance count (emits [InterfaceRead reg count] w)).

Section Driver.

Context {hdr : Header}.

(** ** [ICM20948_mag::_measure] *)
Definition _measure (timestamp_sample : Z) (data : ak09916_regs) : M unit :=
  if Z.land (st1 data) AK09916_ST1_DRDY =? 0 then
    ret tt
  else
    (fun w => emit (MagSetExternal (parent_is_external w)) w) ;;
    (fun w => emit (MagSetTemperature (parent_last_temperature w)) w) ;;
    emit (MagUpdate timestamp_sample (y data) (x data) (- z data)).

(** ** [ICM20948_mag::set_passthrough]

    [out] is [None] for the null pointer (a read transfer) and [Some v] for
    a pointer to the byte [v] (a write transfer). *)
Definition set_passthrough (reg size : Z) (out : option Z) : M unit :=
  parent_write_reg ICMREG_20948_I2C_SLV0_CTRL 0 ;;
  addr <- match out with
          | Some v =>
              parent_write_reg ICMREG_20948_I2C_SLV0_DO v ;;
              ret (u8 AK09916_I2C_ADDR)
          | None =>
              ret (u8 (Z.lor AK09916_I2C_ADDR BIT_I2C_READ_FLAG))
          end ;;
  parent_write_reg ICMREG_20948_I2C_SLV0_ADDR addr ;;
  parent_write_reg ICMREG_20948_I2C_SLV0_REG reg ;;
  parent_write_reg ICMREG_20948_I2C_SLV0_CTRL (Z.lor size BIT_I2C_SLV0_EN).

(** ** [ICM20948_mag::read_reg]

    [uint8_t buf{}] starts at zero.  The call of [read] is handed [buf]
    itself, not its address (where [write_reg] passes [&value]), so the byte
    the transfer delivers is not stored in [buf]: the read is made and [buf]
    is returned as it was. *)
Definition read_reg (reg : Z) : M Z :=
  let buf := 0 in
  set_passthrough (u8 reg) 1 None ;;
  px4_usleep (25 + 25 * 1) ;;
  parent_interface_read ICMREG_20948_EXT_SLV_SENS_DATA_00 1 ;;
  parent_write_reg ICMREG_20948_I2C_SLV0_CTRL 0 ;;
  ret buf.

(** ** [ICM20948_mag::ak09916_check_id]

    Returns the result together with the value left in [deviceid]. *)
Definition ak09916_check_id : M (bool * Z) :=
  deviceid <- read_reg AK09916REG_WIA ;;
  ret (AK09916_DEVICE_ID =? deviceid, deviceid).

(** ** [ICM20948_mag::write_reg] *)
Definition write_reg (reg value : Z) : M unit :=
  set_passthrough (u8 reg) 1 (Some (u8 value)) ;;
  px4_usleep 50 ;;
  parent_write_reg ICMREG_20948_I2C_SLV0_CTRL 0.

(** ** [ICM20948_mag::ak09916_setup_master_i2c] *)
Definition ak09916_setup_master_i2c : M Z :=
  parent_modify_checked_reg ICMREG_20948_USER_CTRL 0 BIT_I2C_MST_EN ;;
  parent_write_reg ICMREG_20948_I2C_MST_CTRL
    (Z.lor BIT_I2C_MST_P_NSR ICM_BITS_I2C_MST_CLOCK_400HZ) ;;
  ret OK.

(** ** [ICM20948_mag::ak09916_setup] *)

(** The loop body up to the identity test. *)
Definition setup_attempt : M (bool * Z) :=
  ak09916_setup_master_i2c ;;
  write_reg AK09916REG_CNTL3 AK09916_RESET ;;
  ak09916_check_id.

(** The loop body after a failed identity test; [retries] is the counter
    after [retries--]. *)
Definition setup_recover (id retries : Z) : M unit :=
  emit (LogWarnBadId id retries) ;;
  parent_modify_reg ICMREG_20948_USER_CTRL 0 BIT_I2C_MST_RST ;;
  px4_usleep 200.

(** [do { ... } while (retries > 0)]: returns the counter on leaving the
    loop.  The counter decreases on every way back to the loop head. *)
Equations? setup_loop (retries : Z) (w : World) : Z * World
  by wf (Z.to_nat retries) lt :=
  setup_loop retries w with setup_attempt w := {
    | (true, _, w1) => (retries, w1)                        (* break *)
    | (false, id, w1) with inspect (retries - 1 >? 0) := {
        | exist _ true _ =>
            setup_loop (retries - 1) (snd (setup_recover id (retries - 1) w1))
        | exist _ false _ =>
            (retries - 1, snd (setup_recover id (retries - 1) w1)) } }.
Proof. lia. Qed.

Definition ak09916_setup : M Z :=
  retries <- setup_loop 20 ;;
  if retries =? 0 then
    emit LogErrDisabled ;;
    parent_modify_checked_reg ICMREG_20948_USER_CTRL BIT_I2C_MST_EN 0 ;;
    parent_write_reg ICMREG_20948_I2C_MST_CTRL 0 ;;
    ret (- EIO)
  else
    write_reg AK09916REG_CNTL2 AK09916_CNTL2_CONTINOUS_MODE_100HZ ;;
    set_passthrough (u8 AK09916REG_ST1) (u8 sizeof_ak09916_regs) None ;;
    ret OK.

(** ** [ICM20948_mag::ak09916_reset] *)
Definition ak09916_reset : M Z :=
  rv <- ak09916_setup ;;
  if rv =? OK then
    write_reg AK09916REG_CNTL3 AK09916_RESET ;;
    ak09916_setup
  else ret rv.

(** ** [ICM20948_mag::ak09916_read_adjustments] *)

(** [((float)(response[i] - 128) / 256.0f) + 1.0f] *)
Definition asa_of_byte (r : Z) : float32 :=
  f32_add (f32_div (f32_of_int (r - 128)) (f32_of_int 256)) (f32_of_int 1).

(** [a[i] = v] on an array held as a list. *)
Fixpoint array_set {A} (i : nat) (v : A) (a : list A) : list A :=
  match a, i with
  | [], _ => []
  | _ :: a', O => v :: a'
  | e :: a', S i' => e :: array_set i' v a'
  end.

(** [for (int i = 0; i < 3; i++)], with [todo] iterations left: [None]
    when the body returns [false], else the array on leaving the loop. *)
Fixpoint adjustments_for (todo i : nat) (response : list Z)
    (ak09916_ASA : list float32) : option (list float32) :=
  match todo with
  | O => Some ak09916_ASA
  | S todo' =>
      let r := nth i response 0 in
      if negb (0 =? r) && negb (0xff =? r) then
        adjustments_for todo' (S i) response
          (array_set i (asa_of_byte r) ak09916_ASA)
      else None
  end.

(** The array [ak09916_ASA] is not initialised; every element is written
    before it is read. *)
Definition ak09916_ASA_uninit : list float32 := [S754_nan; S754_nan; S754_nan].

Definition ak09916_read_adjustments : M bool :=
  write_reg AK09916REG_CNTL1 (Z.lor AK09916_FUZE_MODE AK09916_16BIT_ADC) ;;
  px4_usleep 50 ;;
  response <- interface_read AK09916REG_ASAX 3 ;;
  write_reg AK09916REG_CNTL1 AK09916_POWERDOWN_MODE ;;
  match adjustments_for 3 0 response ak09916_ASA_uninit with
  | None => ret false
  | Some ak09916_ASA =>
      emit (MagSetSensitivity (nth 0 ak09916_ASA S754_nan)
                              (nth 1 ak09916_ASA S754_nan)
                              (nth 2 ak09916_ASA S754_nan)) ;;
      ret true
  end.

(** ** The calls each operation is expected to make *)

(** The calls made by a computation started in [w]. *)
Definition events_of {A} (m : M A) (w : World) : list Event :=
  skipn (length (trace w)) (trace (snd (m w))).

Definition passthrough_events (reg size : Z) (out : option Z) : list Event :=
  [HostWriteReg ICMREG_20948_I2C_SLV0_CTRL 0]
  ++ match out with
     | Some v => [HostWriteReg ICMREG_20948_I2C_SLV0_DO (u8 v)]
     | None => []
     end
  ++ [HostWriteReg ICMREG_20948_I2C_SLV0_ADDR
        (u8 match out with
            | Some _ => AK09916_I2C_ADDR
            | None => Z.lor AK09916_I2C_ADDR BIT_I2C_READ_FLAG
            end);
      HostWriteReg ICMREG_20948_I2C_SLV0_REG (u8 reg);
      HostWriteReg ICMREG_20948_I2C_SLV0_CTRL (u8 (Z.lor size BIT_I2C_SLV0_EN))].

Definition write_reg_events (reg value : Z) : list Event :=
  passthrough_events (u8 reg) 1 (Some (u8 value))
  ++ [Usleep 50; HostWriteReg ICMREG_20948_I2C_SLV0_CTRL 0].

Definition read_reg_events (reg : Z) : list Event :=
  passthrough_events (u8 reg) 1 None
  ++ [Usleep 50;
      HostInterfaceRead ICMREG_20948_EXT_SLV_SENS_DATA_00 1;
      HostWriteReg ICMREG_20948_I2C_SLV0_CTRL 0].

(** Programming of the master interface: enable bit, then clock rate. *)
Definition master_enable_event : Event :=
  HostModifyCheckedReg ICMREG_20948_USER_CTRL 0 (u8 BIT_I2C_MST_EN).
Definition master_clock_event : Event :=
  HostWriteReg ICMREG_20948_I2C_MST_CTRL
    (u8 (Z.lor BIT_I2C_MST_P_NSR ICM_BITS_I2C_MST_CLOCK_400HZ)).
Definition master_i2c_events : list Event :=
  [master_enable_event; master_clock_event].

(** A device reset: the register write [CNTL3 := RESET] through the bridge. *)
Definition device_reset_events : list Event :=
  write_reg_events AK09916REG_CNTL3 AK09916_RESET.

(** One identity-check attempt. *)
Definition attempt_events : list Event :=
  master_i2c_events ++ device_reset_events ++ read_reg_events AK09916REG_WIA.

(** The master reset of the recovery step. *)
Definition master_reset_event : Event :=
  HostModifyReg ICMREG_20948_USER_CTRL 0 (u8 BIT_I2C_MST_RST).

Definition recover_events (id retries : Z) : list Event :=
  [LogWarnBadId id retries; master_reset_event; Usleep 200].

(** The attempts that read the wrong identities [ids], one after the other,
    entered with the counter at [retries]. *)
Fixpoint failed_rounds (ids : list Z) (retries : Z) : list Event :=
  match ids with
  | [] => []
  | id :: ids' =>
      attempt_events ++ recover_events id (retries - 1)
      ++ failed_rounds ids' (retries - 1)
  end.

(** After the identity is confirmed: continuous mode, then the read window. *)
Definition done_events : list Event :=
  write_reg_events AK09916REG_CNTL2 AK09916_CNTL2_CONTINOUS_MODE_100HZ
  ++ passthrough_events (u8 AK09916REG_ST1) (u8 sizeof_ak09916_regs) None.

(** After the counter reached zero. *)
Definition disable_events : list Event :=
  [LogErrDisabled;
   HostModifyCheckedReg ICMREG_20948_USER_CTRL (u8 BIT_I2C_MST_EN) 0;
   HostWriteReg ICMREG_20948_I2C_MST_CTRL 0].

(** Calibration: fuse access mode, settle, read of the three bytes. *)
Definition fuse_read_events : list Event :=
  write_reg_events AK09916REG_CNTL1 (Z.lor AK09916_FUZE_MODE AK09916_16BIT_ADC)
  ++ [Usleep 50; InterfaceRead AK09916REG_ASAX 3].

(** Calibration: the device is sent back to power-down mode. *)
Definition power_down_events : list Event :=
  write_reg_events AK09916REG_CNTL1 AK09916_POWERDOWN_MODE.

(** The calls of a sequence of bridge calls. *)
Definition passthrough_seq_events (calls : list (Z * Z * option Z)) : list Event :=
  flat_map (fun c => passthrough_events (fst (fst c)) (snd (fst c)) (snd c)) calls.

(** ** Observations on traces *)

Definition count (p : Event -> bool) (tr : list Event) : nat :=
  length (filter p tr).

(** Identity-check attempts: each reads the identity byte once. *)
Definition is_identity_read (e : Event) : bool :=
  match e with HostInterfaceRead _ _ => true | _ => false end.
Definition attempts (tr : list Event) : nat := count is_identity_read tr.

Definition is_master_enable (e : Event) : bool :=
  match e with
  | HostModifyCheckedReg r c s =>
      (r =? ICMREG_20948_USER_CTRL) && (c =? 0) && (s =? u8 BIT_I2C_MST_EN)
  | _ => false
  end.

Definition is_master_clock (e : Event) : bool :=
  match e with
  | HostWriteReg r v =>
      (r =? ICMREG_20948_I2C_MST_CTRL)
      && (v =? u8 (Z.lor BIT_I2C_MST_P_NSR ICM_BITS_I2C_MST_CLOCK_400HZ))
  | _ => false
  end.

Definition is_modify_reg (e : Event) : bool :=
  match e with HostModifyReg _ _ _ => true | _ => false end.

Definition is_set_sensitivity (e : Event) : bool :=
  match e with MagSetSensitivity _ _ _ => true | _ => false end.

Definition is_update (e : Event) : bool :=
  match e with MagUpdate _ _ _ _ => true | _ => false end.

(** [part] occurs in [tr] as a block of consecutive calls. *)
Definition occurs (part tr : list Event) : Prop :=
  exists before after, tr = before ++ part ++ after.

(** The proxy is reprogrammed only while it is disabled: [enabled] tracks
    the enable bit of the last write to the proxy control register, and no
    write to the proxy address, register or data-out register happens while
    it is set. *)
Fixpoint bridge_safe (enabled : bool) (tr : list Event) : bool :=
  match tr with
  | [] => true
  | HostWriteReg r v :: tr' =>
      if r =? ICMREG_20948_I2C_SLV0_CTRL then
        bridge_safe (negb (Z.land v (u8 BIT_I2C_SLV0_EN) =? 0)) tr'
      else if (r =? ICMREG_20948_I2C_SLV0_ADDR)
              || (r =? ICMREG_20948_I2C_SLV0_REG)
              || (r =? ICMREG_20948_I2C_SLV0_DO) then
        negb enabled && bridge_safe enabled tr'
      else bridge_safe enabled tr'
  | _ :: tr' => bridge_safe enabled tr'
  end.

(** The proxy control register is none of the registers that choose the
    target of a transfer. *)
Definition proxy_regs_distinct : Prop :=
  ~ In ICMREG_20948_I2C_SLV0_CTRL
       [ICMREG_20948_I2C_SLV0_ADDR; ICMREG_20948_I2C_SLV0_REG;
        ICMREG_20948_I2C_SLV0_DO].

(** The programming of the master interface can be told apart from the
    other calls: the master clock register is none of the proxy registers,
    and the enable mask and the clock setting are not zero. *)
Definition master_config_observable : Prop :=
  ~ In ICMREG_20948_I2C_MST_CTRL
       [ICMREG_20948_I2C_SLV0_ADDR; ICMREG_20948_I2C_SLV0_REG;
        ICMREG_20948_I2C_SLV0_CTRL; ICMREG_20948_I2C_SLV0_DO]
  /\ u8 BIT_I2C_MST_EN <> 0
  /\ u8 (Z.lor BIT_I2C_MST_P_NSR ICM_BITS_I2C_MST_CLOCK_400HZ) <> 0.

(** A sequence of bridge calls [(reg, size, out)]. *)
Fixpoint passthrough_seq (calls : list (Z * Z * option Z)) : M unit :=
  match calls with
  | [] => ret tt
  | (reg, size, out) :: calls' =>
      set_passthrough reg size out ;; passthrough_seq calls'
  end.

End Driver.

(** ** Host registers

    Modelled from the spec: [ICM20948::write_reg], [modify_reg] and
    [modify_checked_reg] are defined outside this file.  Section 6 gives
    [writeHostRegister(addr, value)] and
    [modifyHostRegister(addr, clearMask, setMask)] with a checked variant
    that also verifies the result: a write stores the value, a modify reads
    the register, drops the bits of the clear mask, adds the bits of the set
    mask and writes the result back. *)
Definition host_step (e : Event) (regs : Z -> Z) : Z -> Z :=
  match e with
  | HostWriteReg r v => fun a => if a =? r then v else regs a
  | HostModifyReg r c s | HostModifyCheckedReg r c s =>
      fun a => if a =? r then Z.lor (Z.ldiff (regs r) c) s else regs a
  | _ => regs
  end.

(** The register file after a trace. *)
Definition host_run (tr : list Event) (regs : Z -> Z) : Z -> Z :=
  fold_left (fun regs e => host_step e regs) tr regs.

(** The register files passed through, the initial one first. *)
Fixpoint host_states (tr : list Event) (regs : Z -> Z) : list (Z -> Z) :=
  regs :: match tr with
          | [] => []
          | e :: tr' => host_states tr' (host_step e regs)
          end.

(** The sentinel test of the calibration loop: neither [0x00] nor [0xFF]. *)
Definition usable (r : Z) : bool := negb (0 =? r) && negb (0xff =? r).

(** The sensitivity the spec gives for a calibration byte, as a rational:
    [(v - 128) / 256 + 1]. *)
Definition sensitivity_Q (v : Z) : Q :=
  (inject_Z (v - 128) / inject_Z 256 + 1)%Q.

(** The binary32 result for byte [v] is finite and denotes [sensitivity_Q v]. *)
Definition asa_exact (v : Z) : bool :=
  f32_is_finite (asa_of_byte v)
  && Qeq_bool (f32_to_Q (asa_of_byte v)) (sensitivity_Q v).

(** A call that clears bit [bit] of host register [reg]: a modify whose
    clear mask has the bit, or a write whose value lacks it. *)
Definition clears_bit (reg bit : Z) (e : Event) : bool :=
  match e with
  | HostModifyReg r c _ | HostModifyCheckedReg r c _ =>
      (r =? reg) && negb (Z.land c bit =? 0)
  | HostWriteReg r v => (r =? reg) && (Z.land v bit =? 0)
  | _ => false
  end.

(** Bit [bit] of register [reg] is cleared and, later, set again: some
    register file on the way has the bit clear and a later one has it set. *)
Definition cleared_then_set (reg bit : Z) (states : list (Z -> Z)) : Prop :=
  exists before s1 between s2 after,
    states = before ++ [s1] ++ between ++ [s2] ++ after
    /\ Z.land (s1 reg) bit = 0
    /\ Z.land (s2 reg) bit = bit.

(** The input of the witnesses: every byte read from the bus is [v], except
    the byte at index [good], which is the AK09916 identity. *)
Definition bus_world (good : nat) (v : Z) : World :=
  mkWorld false (S754_zero false) 0 0 0
          (fun n => if Nat.eqb n good then 0x09 else v) 0 [].

(** A bus that delivers the calibration bytes [b0], [b1], [b2]. *)
Definition fuse_world (b0 b1 b2 : Z) : World :=
  mkWorld false (S754_zero false) 0 0 0
          (fun n => nth n [b0; b1; b2] 0) 0 [].

(** ** Further observations on traces *)

Section DriverObservations.

Context {hdr : Header}.

(** The enable flag of the proxy after a trace: the enable bit of the last
    write to the proxy control register, [enabled] when there is none. *)
Fixpoint bridge_after (enabled : bool) (tr : list Event) : bool :=
  match tr with
  | [] => enabled
  | HostWriteReg r v :: tr' =>
      if r =? ICMREG_20948_I2C_SLV0_CTRL then
        bridge_after (negb (Z.land v (u8 BIT_I2C_SLV0_EN) =? 0)) tr'
      else bridge_after enabled tr'
  | _ :: tr' => bridge_after enabled tr'
  end.

(** The master clock register is none of the proxy registers either. *)
Definition proxy_regs_private : Prop :=
  proxy_regs_distinct
  /\ ~ In ICMREG_20948_I2C_MST_CTRL
          [ICMREG_20948_I2C_SLV0_ADDR; ICMREG_20948_I2C_SLV0_REG;
           ICMREG_20948_I2C_SLV0_CTRL; ICMREG_20948_I2C_SLV0_DO].

(** Microseconds spent in [px4_usleep]. *)
Fixpoint slept (tr : list Event) : Z :=
  match tr with
  | [] => 0
  | Usleep us :: tr' => us + slept tr'
  | _ :: tr' => slept tr'
  end.

(** [_measure] on a stream of frames [(timestamp, frame)], in order. *)
Fixpoint measure_seq (frames : list (Z * ak09916_regs)) : M unit :=
  match frames with
  | [] => ret tt
  | (timestamp_sample, data) :: frames' =>
      _measure timestamp_sample data ;; measure_seq frames'
  end.

(** The frames of a stream whose data-ready flag is set. *)
Definition ready_frames (frames : list (Z * ak09916_regs)) : list (Z * ak09916_regs) :=
  filter (fun f => negb (Z.land (st1 (snd f)) AK09916_ST1_DRDY =? 0)) frames.

(** The samples in a trace, as [(timestamp, x, y, z)], in order. *)
Fixpoint samples (tr : list Event) : list (Z * Z * Z * Z) :=
  match tr with
  | [] => []
  | MagUpdate t a b c :: tr' => (t, a, b, c) :: samples tr'
  | _ :: tr' => samples tr'
  end.

End DriverObservations.

(** * Properties *)

(** ** World bookkeeping *)

Lemma u8_idem (v : Z) : u8 (u8 v) = u8 v.
Proof. unfold u8. apply Z.mod_mod. lia. Qed.

Lemma emits_emits (l1 l2 : list Event) (w : World) :
  emits l2 (emits l1 w) = emits (l1 ++ l2) w.
Proof. unfold emits; cbn. now rewrite app_assoc. Qed.

Lemma emits_advance (n : nat) (l : list Event) (w : World) :
  emits l (advance n w) = advance n (emits l w).
Proof. reflexivity. Qed.

Lemma advance_advance (n m : nat) (w : World) :
  advance m (advance n w) = advance (n + m) w.
Proof. unfold advance; cbn. now rewrite Nat.add_assoc. Qed.

Lemma emits_nil (w : World) : emits [] w = w.
Proof. destruct w; unfold emits; cbn. now rewrite app_nil_r. Qed.

Lemma advance_0 (w : World) : advance 0 w = w.
Proof. destruct w; unfold advance; cbn. now rewrite Nat.add_0_r. Qed.

Lemma trace_advance_emits (n : nat) (l : list Event) (w : World) :
  trace (advance n (emits l w)) = trace w ++ l.
Proof. reflexivity. Qed.

Lemma rx_byte_emits (l : list Event) (w : World) (i : nat) :
  rx_byte (emits l w) i = rx_byte w i.
Proof. reflexivity. Qed.

Lemma rx_byte_advance (n : nat) (w : World) (i : nat) :
  rx_byte (advance n w) i = rx_byte w (n + i).
Proof. unfold rx_byte; cbn. now rewrite Nat.add_assoc. Qed.

Lemma rx_bytes_S (w : World) (n : nat) :
  rx_bytes w (S n) = rx_byte w 0 :: rx_bytes (advance 1 w) n.
Proof.
  unfold rx_bytes. cbn [seq map]. f_equal.
  rewrite <- seq_shift, map_map.
  apply map_ext. intro i. now rewrite rx_byte_advance.
Qed.

Lemma rx_bytes_advance_emits (k : nat) (l : list Event) (w : World) (n : nat) :
  rx_bytes (advance k (emits l w)) n = rx_bytes (advance k w) n.
Proof. reflexivity. Qed.

Lemma rx_bytes_snoc (w : World) (n : nat) :
  rx_bytes w (S n) = rx_bytes w n ++ [rx_byte w n].
Proof. unfold rx_bytes. now rewrite seq_S, map_app. Qed.

Lemma rx_bytes_length (w : World) (n : nat) : length (rx_bytes w n) = n.
Proof. unfold rx_bytes. now rewrite length_map, length_seq. Qed.

(** What [events_of] gives for a run that appends [l]. *)
Lemma events_of_run {A} (m : M A) (w : World) (a : A) (n : nat) (l : list Event) :
  m w = (a, advance n (emits l w)) -> events_of m w = l.
Proof.
  intros E. unfold events_of. rewrite E. cbn [snd].
  rewrite trace_advance_emits.
  rewrite skipn_app, skipn_all, Nat.sub_diag. reflexivity.
Qed.

Lemma events_of_emits {A} (m : M A) (w : World) (a : A) (l : list Event) :
  m w = (a, emits l w) -> events_of m w = l.
Proof.
  intros E. unfold events_of. rewrite E. cbn [snd emits trace].
  rewrite skipn_app, skipn_all, Nat.sub_diag. reflexivity.
Qed.

Lemma count_app (p : Event -> bool) (l1 l2 : list Event) :
  count p (l1 ++ l2) = (count p l1 + count p l2)%nat.
Proof. unfold count. now rewrite filter_app, length_app. Qed.

Section DriverFacts.

Context {hdr : Header}.

(** ** The bridge and the register accessors *)

Lemma set_passthrough_run (reg size : Z) (out : option Z) (w : World) :
  set_passthrough reg size out w
  = (tt, emits (passthrough_events reg size out) w).
Proof.
  unfold set_passthrough, passthrough_events, bind, parent_write_reg, emit, ret.
  destruct out as [v|]; cbn [app];
    rewrite ?emits_emits, ?u8_idem; reflexivity.
Qed.

Lemma write_reg_run (reg value : Z) (w : World) :
  write_reg reg value w = (tt, emits (write_reg_events reg value) w).
Proof.
  unfold write_reg, write_reg_events, bind.
  rewrite set_passthrough_run.
  unfold px4_usleep, parent_write_reg, emit.
  rewrite !emits_emits, <- ?app_assoc. reflexivity.
Qed.

Lemma read_reg_run (reg : Z) (w : World) :
  read_reg reg w = (0, advance 1 (emits (read_reg_events reg) w)).
Proof.
  unfold read_reg, read_reg_events, bind.
  rewrite set_passthrough_run.
  unfold px4_usleep, parent_interface_read, parent_write_reg, emit, ret.
  rewrite ?emits_emits, ?emits_advance, ?emits_emits, <- ?app_assoc.
  reflexivity.
Qed.

Lemma ak09916_check_id_run (w : World) :
  ak09916_check_id w
  = ((AK09916_DEVICE_ID =? 0, 0),
     advance 1 (emits (read_reg_events AK09916REG_WIA) w)).
Proof. unfold ak09916_check_id, bind. rewrite read_reg_run. reflexivity. Qed.

Lemma ak09916_setup_master_i2c_run (w : World) :
  ak09916_setup_master_i2c w = (OK, emits master_i2c_events w).
Proof.
  unfold ak09916_setup_master_i2c, bind, parent_modify_checked_reg,
    parent_write_reg, emit, ret.
  rewrite emits_emits. reflexivity.
Qed.

Lemma setup_attempt_run (w : World) :
  setup_attempt w
  = ((AK09916_DEVICE_ID =? 0, 0),
     advance 1 (emits attempt_events w)).
Proof.
  unfold setup_attempt, attempt_events, device_reset_events, bind.
  rewrite ak09916_setup_master_i2c_run, write_reg_run, ak09916_check_id_run.
  rewrite ?rx_byte_emits, ?emits_emits, <- ?app_assoc. reflexivity.
Qed.

Lemma setup_recover_run (id retries : Z) (w : World) :
  setup_recover id retries w = (tt, emits (recover_events id retries) w).
Proof.
  unfold setup_recover, bind, parent_modify_reg, px4_usleep, emit.
  rewrite !emits_emits. reflexivity.
Qed.

End DriverFacts.

Section SetupLoop.

Context {hdr : Header}.

(** ** The retry loop *)

(** One pass through the loop body. *)
Lemma setup_loop_body (retries : Z) (w : World) :
  setup_loop retries w
  = let '(found, id, w1) := setup_attempt w in
    if found then (retries, w1)
    else
      let w2 := snd (setup_recover id (retries - 1) w1) in
      if retries - 1 >? 0 then setup_loop (retries - 1) w2
      else (retries - 1, w2).
Proof.
  rewrite setup_loop_equation_1.
  destruct (setup_attempt w) as [[[|] id] w1]; cbn.
  - reflexivity.
  - destruct (retries - 1 >? 0); reflexivity.
Qed.

Lemma failed_rounds_app (ids1 ids2 : list Z) :
  forall retries,
    failed_rounds (ids1 ++ ids2) retries
    = failed_rounds ids1 retries
      ++ failed_rounds ids2 (retries - Z.of_nat (length ids1)).
Proof.
  induction ids1 as [|id ids1 IH]; intros retries.
  - cbn. now rewrite Z.sub_0_r.
  - cbn [app failed_rounds length]. rewrite IH, <- !app_assoc.
    do 3 f_equal. f_equal. lia.
Qed.

(** The identity check compares the constant with [buf], which is 0.  When
    the constant is not 0 the check fails: the counter is decremented, the
    recovery calls are made, and the loop is entered again while the counter
    is positive. *)
Lemma setup_loop_bad_id (retries : Z) (w : World) :
  AK09916_DEVICE_ID <> 0 ->
  setup_loop retries w
  = let w' := advance 1 (emits (attempt_events
                                ++ recover_events 0 (retries - 1)) w) in
    if retries - 1 >? 0 then setup_loop (retries - 1) w' else (retries - 1, w').
Proof.
  intros Hbad. rewrite setup_loop_body, setup_attempt_run.
  rewrite (proj2 (Z.eqb_neq _ _) Hbad).
  rewrite setup_recover_run. cbn [snd].
  rewrite emits_advance, emits_emits. reflexivity.
Qed.

(** A successful identity check leaves the loop with the counter untouched. *)
Lemma setup_loop_good_id (retries : Z) (w : World) :
  AK09916_DEVICE_ID = 0 ->
  setup_loop retries w = (retries, advance 1 (emits attempt_events w)).
Proof.
  intros Hgood. rewrite setup_loop_body, setup_attempt_run.
  rewrite Hgood, Z.eqb_refl. reflexivity.
Qed.

(** [n] failed checks in a row, with retries to spare. *)
Lemma setup_loop_failed_rounds (n : nat) :
  forall (retries : Z) (w : World),
    AK09916_DEVICE_ID <> 0 ->
    Z.of_nat n < retries ->
    setup_loop retries w
    = setup_loop (retries - Z.of_nat n)
        (advance n (emits (failed_rounds (repeat 0 n) retries) w)).
Proof.
  induction n as [|n IH]; intros retries w Hbad Hlt.
  - cbn. rewrite Z.sub_0_r, emits_nil, advance_0. reflexivity.
  - rewrite setup_loop_bad_id by assumption. cbv zeta.
    replace (retries - 1 >? 0) with true by (symmetry; apply Z.gtb_lt; lia).
    rewrite IH by (try assumption; lia).
    cbn [repeat failed_rounds].
    rewrite emits_advance, emits_emits, advance_advance, <- ?app_assoc.
    replace (retries - 1 - Z.of_nat n) with (retries - Z.of_nat (S n)) by lia.
    reflexivity.
Qed.

(** The last of the retries fails too: the loop is left with the counter
    at zero. *)
Lemma setup_loop_exhausted (n : nat) (w : World) :
  AK09916_DEVICE_ID <> 0 ->
  setup_loop (Z.of_nat (S n)) w
  = (0, advance (S n)
          (emits (failed_rounds (repeat 0 (S n)) (Z.of_nat (S n))) w)).
Proof.
  intros Hbad.
  rewrite (setup_loop_failed_rounds n) by (try assumption; lia).
  rewrite setup_loop_bad_id by assumption.
  cbv zeta.
  replace (Z.of_nat (S n) - Z.of_nat n - 1) with 0 by lia.
  cbn [Z.gtb Z.compare].
  rewrite emits_advance, emits_emits, advance_advance, Nat.add_1_r.
  replace (repeat 0 (S n)) with (repeat 0 n ++ [0])
    by (symmetry; apply repeat_cons).
  rewrite failed_rounds_app, repeat_length.
  cbn [failed_rounds]. rewrite app_nil_r.
  replace (Z.of_nat (S n) - Z.of_nat n - 1) with 0 by lia.
  reflexivity.
Qed.

(** ** [ak09916_setup] as a whole *)

(** Only an identity constant of 0 passes the check, on the first attempt. *)
Lemma ak09916_setup_success (w : World) :
  AK09916_DEVICE_ID = 0 ->
  ak09916_setup w
  = (OK, advance 1 (emits (attempt_events ++ done_events) w)).
Proof.
  intros Hgood. unfold ak09916_setup, bind.
  rewrite setup_loop_good_id by assumption. cbn [Z.eqb].
  rewrite write_reg_run, set_passthrough_run. unfold ret, done_events.
  rewrite ?emits_advance, ?emits_emits, <- ?app_assoc. reflexivity.
Qed.

(** Any other identity constant: twenty failed checks. *)
Lemma ak09916_setup_failure (w : World) :
  AK09916_DEVICE_ID <> 0 ->
  ak09916_setup w
  = (- EIO, advance 20
              (emits (failed_rounds (repeat 0 20) 20 ++ disable_events) w)).
Proof.
  intros Hbad. unfold ak09916_setup, bind.
  change 20 with (Z.of_nat 20) at 1.
  rewrite (setup_loop_exhausted 19) by assumption.
  cbn [Z.eqb].
  unfold parent_modify_checked_reg, parent_write_reg, emit, ret, disable_events.
  rewrite ?emits_advance, ?emits_emits, <- ?app_assoc. reflexivity.
Qed.

(** The two ways a run of [ak09916_setup] can go. *)
Lemma ak09916_setup_cases (w : World) :
  (AK09916_DEVICE_ID = 0
   /\ ak09916_setup w
      = (OK, advance 1 (emits (attempt_events ++ done_events) w)))
  \/ (AK09916_DEVICE_ID <> 0
      /\ ak09916_setup w
         = (- EIO, advance 20
                     (emits (failed_rounds (repeat 0 20) 20
                             ++ disable_events) w))).
Proof.
  destruct (Z.eq_dec AK09916_DEVICE_ID 0) as [E|E].
  - left. split; [exact E | apply ak09916_setup_success; exact E].
  - right. split; [exact E | apply ak09916_setup_failure; exact E].
Qed.

End SetupLoop.

Section Counting.

Context {hdr : Header}.

(** ** Counting calls in the traces of [ak09916_setup] *)

Lemma count_cons (p : Event -> bool) (e : Event) (l : list Event) :
  count p (e :: l) = ((if p e then 1 else 0) + count p l)%nat.
Proof. unfold count. cbn [filter]. destruct (p e); reflexivity. Qed.

Lemma attempts_app (l1 l2 : list Event) :
  attempts (l1 ++ l2) = (attempts l1 + attempts l2)%nat.
Proof. apply count_app. Qed.

Lemma attempts_failed_rounds (ids : list Z) :
  forall retries, attempts (failed_rounds ids retries) = length ids.
Proof.
  induction ids as [|id ids IH]; intros retries; [reflexivity|].
  cbn [failed_rounds length]. unfold attempts in *.
  rewrite !count_app, IH. reflexivity.
Qed.

Lemma is_master_enable_event : is_master_enable master_enable_event = true.
Proof. cbn. now rewrite !Z.eqb_refl. Qed.

Lemma is_master_clock_event : is_master_clock master_clock_event = true.
Proof. cbn. now rewrite !Z.eqb_refl. Qed.

Lemma count_enable_passthrough (reg size : Z) (out : option Z) :
  count is_master_enable (passthrough_events reg size out) = 0%nat.
Proof. destruct out; reflexivity. Qed.

Lemma count_clock_passthrough (reg size : Z) (out : option Z) :
  master_config_observable ->
  count is_master_clock (passthrough_events reg size out) = 0%nat.
Proof.
  intros (Hregs & _ & _). cbn [In] in Hregs.
  assert (Ha : (ICMREG_20948_I2C_SLV0_ADDR =? ICMREG_20948_I2C_MST_CTRL) = false)
    by (apply Z.eqb_neq; intuition congruence).
  assert (Hr : (ICMREG_20948_I2C_SLV0_REG =? ICMREG_20948_I2C_MST_CTRL) = false)
    by (apply Z.eqb_neq; intuition congruence).
  assert (Hc : (ICMREG_20948_I2C_SLV0_CTRL =? ICMREG_20948_I2C_MST_CTRL) = false)
    by (apply Z.eqb_neq; intuition congruence).
  assert (Hd : (ICMREG_20948_I2C_SLV0_DO =? ICMREG_20948_I2C_MST_CTRL) = false)
    by (apply Z.eqb_neq; intuition congruence).
  unfold passthrough_events.
  destruct out; cbn [app]; rewrite !count_cons; cbn [is_master_clock];
    rewrite ?Ha, ?Hr, ?Hc, ?Hd; reflexivity.
Qed.

Lemma count_enable_attempt : count is_master_enable attempt_events = 1%nat.
Proof.
  unfold attempt_events, master_i2c_events, device_reset_events,
    write_reg_events, read_reg_events.
  cbn [app]. rewrite !count_cons, !count_app, !count_enable_passthrough.
  rewrite is_master_enable_event. reflexivity.
Qed.

Lemma count_clock_attempt :
  master_config_observable -> count is_master_clock attempt_events = 1%nat.
Proof.
  intros Hobs. pose proof Hobs as (Hregs & _ & _). cbn [In] in Hregs.
  assert (Hc : (ICMREG_20948_I2C_SLV0_CTRL =? ICMREG_20948_I2C_MST_CTRL) = false)
    by (apply Z.eqb_neq; intuition congruence).
  unfold attempt_events, master_i2c_events, device_reset_events,
    write_reg_events, read_reg_events.
  cbn [app]. rewrite !count_cons, !count_app, !count_clock_passthrough by assumption.
  rewrite is_master_clock_event.
  rewrite !count_cons. cbn [is_master_clock]. rewrite Hc. reflexivity.
Qed.

Lemma count_enable_failed_rounds (ids : list Z) :
  forall retries,
    count is_master_enable (failed_rounds ids retries) = length ids.
Proof.
  induction ids as [|id ids IH]; intros retries; [reflexivity|].
  cbn [failed_rounds length].
  rewrite !count_app, IH, count_enable_attempt. reflexivity.
Qed.

Lemma count_clock_failed_rounds (ids : list Z) :
  master_config_observable ->
  forall retries,
    count is_master_clock (failed_rounds ids retries) = length ids.
Proof.
  intros Hobs.
  induction ids as [|id ids IH]; intros retries; [reflexivity|].
  cbn [failed_rounds length].
  rewrite !count_app, IH, count_clock_attempt by assumption. reflexivity.
Qed.

Lemma count_clock_done :
  master_config_observable -> count is_master_clock done_events = 0%nat.
Proof.
  intros Hobs. pose proof Hobs as (Hregs & _ & _). cbn [In] in Hregs.
  assert (Hc : (ICMREG_20948_I2C_SLV0_CTRL =? ICMREG_20948_I2C_MST_CTRL) = false)
    by (apply Z.eqb_neq; intuition congruence).
  unfold done_events, write_reg_events.
  rewrite !count_app, !count_clock_passthrough by assumption.
  rewrite !count_cons. cbn [is_master_clock]. rewrite Hc. reflexivity.
Qed.

Lemma count_enable_disable :
  master_config_observable -> count is_master_enable disable_events = 0%nat.
Proof.
  intros (_ & Hen & _). unfold disable_events.
  rewrite !count_cons. cbn [is_master_enable].
  apply Z.eqb_neq in Hen. rewrite Hen, Bool.andb_false_r. reflexivity.
Qed.

Lemma count_clock_disable :
  master_config_observable -> count is_master_clock disable_events = 0%nat.
Proof.
  intros (_ & _ & Hclk). unfold disable_events.
  rewrite !count_cons. cbn [is_master_clock].
  assert (E : (0 =? u8 (Z.lor BIT_I2C_MST_P_NSR ICM_BITS_I2C_MST_CLOCK_400HZ)) = false)
    by (apply Z.eqb_neq; congruence).
  rewrite E, Bool.andb_false_r. reflexivity.
Qed.

End Counting.

Section SetupClaims.

Context {hdr : Header}.

(** ** Initialization: failure *)

Lemma host_run_app (l1 l2 : list Event) (regs : Z -> Z) :
  host_run (l1 ++ l2) regs = host_run l2 (host_run l1 regs).
Proof. unfold host_run. apply fold_left_app. Qed.

(** C2: the identity check of every attempt sees [buf], which is 0; when
    the expected constant is not 0 it appears in none of the attempts.  Then
    [ak09916_setup], on every bus input, makes twenty attempts, clears the
    master enable bit, writes [0] to the master clock register, and returns
    [-EIO]; these are its last calls, and they leave the enable bit clear and
    the clock register at [0]. *)
Theorem setup_fails_after_20_attempts (w : World) :
  AK09916_DEVICE_ID <> 0 ->
  ak09916_setup w
  = (- EIO, advance 20
              (emits (failed_rounds (repeat 0 20) 20
                      ++ [LogErrDisabled;
                          HostModifyCheckedReg ICMREG_20948_USER_CTRL
                            (u8 BIT_I2C_MST_EN) 0;
                          HostWriteReg ICMREG_20948_I2C_MST_CTRL 0]) w))
  /\ attempts (events_of ak09916_setup w) = 20%nat
  /\ (ICMREG_20948_USER_CTRL <> ICMREG_20948_I2C_MST_CTRL ->
      forall regs : Z -> Z,
        let regs' := host_run (events_of ak09916_setup w) regs in
        Z.land (regs' ICMREG_20948_USER_CTRL) (u8 BIT_I2C_MST_EN) = 0
        /\ regs' ICMREG_20948_I2C_MST_CTRL = 0).
Proof.
  intros Hbad. pose proof (ak09916_setup_failure w Hbad) as E.
  split; [exact E|].
  rewrite (events_of_run _ _ _ _ _ E). split.
  - rewrite attempts_app, attempts_failed_rounds, repeat_length.
    reflexivity.
  - intros Hne regs regs'. subst regs'.
    rewrite host_run_app.
    set (regs0 := host_run (failed_rounds (repeat 0 20) 20) regs).
    unfold host_run, disable_events. cbn [fold_left host_step].
    rewrite (proj2 (Z.eqb_neq _ _) Hne), !Z.eqb_refl, Z.lor_0_r.
    split; [apply Z.land_ldiff | reflexivity].
Qed.

End SetupClaims.

(** C1 fails on the code as written: the bus delivers the identity [0x09]
    on every identity read, from the first on, yet [read_reg] returns 0, the
    check fails twenty times and [ak09916_setup] returns [-EIO]. *)
Lemma setup_misses_identity_on_bus :
  rx_byte (bus_world 0 0x09) 0 = @AK09916_DEVICE_ID datasheet
  /\ fst (@ak09916_setup datasheet (bus_world 0 0x09)) = - 5
  /\ attempts (events_of (@ak09916_setup datasheet) (bus_world 0 0x09)) = 20%nat.
Proof. vm_compute. repeat split. Qed.

Lemma setup_fails_after_20_attempts_witness :
  fst (@ak09916_setup datasheet (bus_world 20 0)) = -5
  /\ attempts (events_of (@ak09916_setup datasheet) (bus_world 20 0)) = 20%nat.
Proof.
  destruct (@setup_fails_after_20_attempts datasheet (bus_world 20 0))
    as (E & Hatt & _).
  - cbn. discriminate.
  - split; [rewrite E; reflexivity | exact Hatt].
Defined.

Section RetryClaims.

Context {hdr : Header}.

(** ** Programming of the master interface *)

Lemma count_clock_after_config :
  master_config_observable ->
  count is_master_clock (device_reset_events ++ read_reg_events AK09916REG_WIA)
  = 0%nat.
Proof.
  intros Hobs. pose proof Hobs as (Hregs & _ & _). cbn [In] in Hregs.
  assert (Hc : (ICMREG_20948_I2C_SLV0_CTRL =? ICMREG_20948_I2C_MST_CTRL) = false)
    by (apply Z.eqb_neq; intuition congruence).
  unfold device_reset_events, write_reg_events, read_reg_events.
  rewrite !count_app, !count_clock_passthrough by assumption.
  rewrite !count_cons. cbn [is_master_clock]. rewrite Hc. reflexivity.
Qed.

(** The failed rounds, cut at the programming of the master interface. *)
Lemma failed_rounds_by_attempt (ids : list Z) :
  master_config_observable ->
  forall retries,
    exists rounds : list (list Event),
      failed_rounds ids retries
      = flat_map (fun r => master_i2c_events ++ r) rounds
      /\ length rounds = length ids
      /\ Forall (fun r => attempts r = 1%nat
                          /\ count is_master_enable r = 0%nat
                          /\ count is_master_clock r = 0%nat) rounds.
Proof.
  intros Hobs. induction ids as [|id ids IH]; intros retries.
  - exists []. repeat split. constructor.
  - destruct (IH (retries - 1)) as (rounds & E & Hlen & Hall).
    exists ((device_reset_events ++ read_reg_events AK09916REG_WIA
             ++ recover_events id (retries - 1)) :: rounds).
    split; [|split].
    + cbn [failed_rounds flat_map]. rewrite E. unfold attempt_events.
      rewrite <- !app_assoc. reflexivity.
    + cbn [length]. now rewrite Hlen.
    + constructor; [|exact Hall].
      split; [reflexivity|]. split; [reflexivity|].
      rewrite app_assoc, count_app, count_clock_after_config by assumption.
      reflexivity.
Qed.

(** C8, as the code has it: the calls of [ak09916_setup] are a sequence of
    identity-check attempts, between one and twenty, followed by a tail.
    Every attempt begins with the programming of the master interface (the
    enable bit, then the clock rate) and holds it nowhere else; the tail
    holds none.  So the master interface is programmed at the start of every
    attempt, once per attempt. *)
Theorem master_config_once_per_attempt (w : World) :
  master_config_observable ->
  exists (rounds : list (list Event)) (tail : list Event),
    events_of ak09916_setup w
    = flat_map
        (fun r =>
           [HostModifyCheckedReg ICMREG_20948_USER_CTRL 0 (u8 BIT_I2C_MST_EN);
            HostWriteReg ICMREG_20948_I2C_MST_CTRL
              (u8 (Z.lor BIT_I2C_MST_P_NSR ICM_BITS_I2C_MST_CLOCK_400HZ))]
           ++ r) rounds
      ++ tail
    /\ (1 <= length rounds <= 20)%nat
    /\ length rounds = attempts (events_of ak09916_setup w)
    /\ Forall (fun r => attempts r = 1%nat
                        /\ count is_master_enable r = 0%nat
                        /\ count is_master_clock r = 0%nat) rounds
    /\ attempts tail = 0%nat
    /\ count is_master_enable tail = 0%nat
    /\ count is_master_clock tail = 0%nat
    /\ count is_master_enable (events_of ak09916_setup w) = length rounds
    /\ count is_master_clock (events_of ak09916_setup w) = length rounds.
Proof.
  intros Hobs.
  destruct (ak09916_setup_cases w) as [(Hid & E) | (Hid & E)];
    rewrite (events_of_run _ _ _ _ _ E).
  - exists [device_reset_events ++ read_reg_events AK09916REG_WIA], done_events.
    split.
    { cbn [flat_map]. unfold attempt_events, master_i2c_events,
        master_enable_event, master_clock_event.
      rewrite <- !app_assoc. reflexivity. }
    split; [cbn; lia|]. split; [reflexivity|].
    split.
    { constructor; [|constructor].
      split; [reflexivity|]. split; [reflexivity|].
      apply count_clock_after_config. exact Hobs. }
    split; [reflexivity|]. split; [reflexivity|].
    split; [apply count_clock_done; exact Hobs|].
    rewrite !count_app.
    change (count is_master_enable done_events) with 0%nat.
    rewrite count_enable_attempt, count_clock_attempt, count_clock_done
      by assumption.
    split; reflexivity.
  - destruct (failed_rounds_by_attempt (repeat 0 20) Hobs 20)
      as (rounds & Er & Hlen & Hall).
    rewrite repeat_length in Hlen.
    exists rounds, disable_events.
    split; [rewrite Er; reflexivity|].
    split; [lia|].
    split.
    { rewrite attempts_app, attempts_failed_rounds, repeat_length.
      change (attempts disable_events) with 0%nat. lia. }
    split; [exact Hall|]. split; [reflexivity|].
    split; [apply count_enable_disable; exact Hobs|].
    split; [apply count_clock_disable; exact Hobs|].
    rewrite !count_app.
    rewrite count_enable_failed_rounds, count_clock_failed_rounds by assumption.
    rewrite count_enable_disable, count_clock_disable by assumption.
    rewrite repeat_length. lia.
Qed.

(** ** The recovery step *)

(** C9, as the code has it: on a failed identity check (the constant is
    compared with [buf = 0]) the loop decrements the counter, logs the
    identity read, sets the master reset bit with one read-modify-write whose
    clear mask is empty, waits 200 microseconds, and goes back to the loop
    head while the decremented counter is positive.  In [ak09916_setup] the
    counter starts at 20: after [n] failed checks the calls made are [n] such
    rounds, followed by the programming of the master interface when
    [n < 20]. *)
Theorem failed_check_recovery (w : World) :
  (forall retries : Z,
      AK09916_DEVICE_ID <> 0 ->
      setup_loop retries w
      = let w' := advance 1
                    (emits (attempt_events
                            ++ [LogWarnBadId 0 (retries - 1);
                                HostModifyReg ICMREG_20948_USER_CTRL 0
                                  (u8 BIT_I2C_MST_RST);
                                Usleep 200]) w) in
        if retries - 1 >? 0 then setup_loop (retries - 1) w'
        else (retries - 1, w'))
  /\ (forall n : nat,
         (n <= 20)%nat ->
         AK09916_DEVICE_ID <> 0 ->
         exists rest,
           events_of ak09916_setup w = failed_rounds (repeat 0 n) 20 ++ rest
           /\ ((n < 20)%nat -> exists rest', rest = master_i2c_events ++ rest'))
  /\ (forall regs : Z -> Z,
         host_step (HostModifyReg ICMREG_20948_USER_CTRL 0 (u8 BIT_I2C_MST_RST))
           regs ICMREG_20948_USER_CTRL
         = Z.lor (regs ICMREG_20948_USER_CTRL) (u8 BIT_I2C_MST_RST)).
Proof.
  split; [|split].
  - intros retries Hbad. apply setup_loop_bad_id. exact Hbad.
  - intros n Hn Hbad.
    rewrite (events_of_run _ _ _ _ _ (ak09916_setup_failure w Hbad)).
    replace (repeat 0 20) with (repeat 0 n ++ repeat 0 (20 - n))
      by (rewrite <- repeat_app; f_equal; lia).
    rewrite failed_rounds_app, repeat_length, <- app_assoc.
    eexists. split; [reflexivity|].
    intros Hlt. destruct (20 - n)%nat as [|m] eqn:Em; [lia|].
    cbn [repeat failed_rounds]. unfold attempt_events.
    eexists. rewrite <- !app_assoc. reflexivity.
  - intros regs. cbn [host_step]. rewrite Z.eqb_refl, Z.ldiff_0_r. reflexivity.
Qed.

End RetryClaims.

Lemma datasheet_master_config_observable : @master_config_observable datasheet.
Proof.
  unfold master_config_observable. cbn.
  repeat split; try discriminate.
  intros [E|[E|[E|[E|[]]]]]; discriminate E.
Qed.

(** C8 as stated fails: in a run of [ak09916_setup] on the data sheet
    constants the master interface is programmed twenty times, not once. *)
Lemma master_config_programmed_twenty_times :
  ~ (count (@is_master_enable datasheet)
       (events_of (@ak09916_setup datasheet) (bus_world 20 0)) = 1%nat
     /\ count (@is_master_clock datasheet)
          (events_of (@ak09916_setup datasheet) (bus_world 20 0)) = 1%nat).
Proof. vm_compute. intros [E _]. discriminate E. Qed.

Lemma master_config_once_per_attempt_witness :
  exists (rounds : list (list Event)) (tail : list Event),
    events_of (@ak09916_setup datasheet) (bus_world 20 0)
    = flat_map (fun r => @master_i2c_events datasheet ++ r) rounds ++ tail
    /\ length rounds = 20%nat.
Proof.
  destruct (@master_config_once_per_attempt datasheet (bus_world 20 0)
              datasheet_master_config_observable)
    as (rounds & tail & E & _ & Hlen & _).
  exists rounds, tail. split; [exact E|].
  rewrite Hlen. reflexivity.
Defined.

(** C9 as stated fails: in a run where all twenty identity checks fail,
    no call clears the master reset bit, and, started with the bit set, the
    bit is set in every register file on the way. *)
Lemma master_reset_bit_never_cleared :
  existsb (clears_bit (@ICMREG_20948_USER_CTRL datasheet)
                      (u8 (@BIT_I2C_MST_RST datasheet)))
          (events_of (@ak09916_setup datasheet) (bus_world 20 0)) = false
  /\ ~ cleared_then_set (@ICMREG_20948_USER_CTRL datasheet)
         (u8 (@BIT_I2C_MST_RST datasheet))
         (host_states (events_of (@ak09916_setup datasheet) (bus_world 20 0))
                      (fun a => if a =? 0x003 then 0x02 else 0)).
Proof.
  split; [vm_compute; reflexivity|].
  intros (before & s1 & between & s2 & after & E & Hclear & _).
  assert (Hall : forallb (fun regs : Z -> Z => Z.land (regs 3) 2 =? 2)
                   (host_states
                      (events_of (@ak09916_setup datasheet) (bus_world 20 0))
                      (fun a => if a =? 0x003 then 0x02 else 0)) = true)
    by (vm_compute; reflexivity).
  rewrite E in Hall. rewrite forallb_forall in Hall.
  specialize (Hall s1 ltac:(apply in_or_app; right; left; reflexivity)).
  change (Z.land (s1 3) 2 = 0) in Hclear.
  rewrite Hclear in Hall. discriminate Hall.
Qed.

Lemma failed_check_recovery_witness :
  exists rest,
    events_of (@ak09916_setup datasheet) (bus_world 20 0)
    = @failed_rounds datasheet [0; 0] 20 ++ rest.
Proof.
  destruct (@failed_check_recovery datasheet (bus_world 20 0)) as (_ & Hrun & _).
  destruct (Hrun 2%nat) as (rest & E & _).
  - lia.
  - cbn. discriminate.
  - exists rest. exact E.
Defined.

Section MeasureClaims.

Context {hdr : Header}.

(** ** Samples *)

(** C4: a frame whose data-ready flag is set is published once, with the
    axes [(x, y, z)] remapped to [(y, x, -z)] and the given timestamp, after
    the external flag and the temperature of the parent are passed on. *)
Theorem measure_publishes_remapped
    (timestamp_sample : Z) (data : ak09916_regs) (w : World) :
  Z.land (st1 data) AK09916_ST1_DRDY <> 0 ->
  _measure timestamp_sample data w
  = (tt, emits [MagSetExternal (parent_is_external w);
                MagSetTemperature (parent_last_temperature w);
                MagUpdate timestamp_sample (y data) (x data) (- z data)] w)
  /\ count is_update (events_of (_measure timestamp_sample data) w) = 1%nat.
Proof.
  intros Hrdy.
  assert (E : _measure timestamp_sample data w
              = (tt, emits [MagSetExternal (parent_is_external w);
                            MagSetTemperature (parent_last_temperature w);
                            MagUpdate timestamp_sample (y data) (x data)
                              (- z data)] w)).
  { unfold _measure.
    rewrite (proj2 (Z.eqb_neq _ _) Hrdy).
    unfold bind, emit. cbn [emits parent_is_external parent_last_temperature].
    rewrite !emits_emits. reflexivity. }
  split; [exact E|].
  rewrite (events_of_emits _ _ _ _ E). reflexivity.
Qed.

(** C5: a frame whose data-ready flag is clear is dropped: [_measure]
    returns with the world as it was, so nothing is published, nothing is
    logged and no counter moves. *)
Theorem measure_drops_not_ready
    (timestamp_sample : Z) (data : ak09916_regs) (w : World) :
  Z.land (st1 data) AK09916_ST1_DRDY = 0 ->
  _measure timestamp_sample data w = (tt, w)
  /\ events_of (_measure timestamp_sample data) w = []
  /\ mag_overruns (snd (_measure timestamp_sample data w)) = mag_overruns w
  /\ mag_overflows (snd (_measure timestamp_sample data w)) = mag_overflows w
  /\ mag_errors (snd (_measure timestamp_sample data w)) = mag_errors w.
Proof.
  intros Hnot.
  assert (E : _measure timestamp_sample data w = (tt, w)).
  { unfold _measure. rewrite Hnot. reflexivity. }
  split; [exact E|].
  unfold events_of. rewrite E. cbn [snd].
  rewrite skipn_all. repeat split; reflexivity.
Qed.

End MeasureClaims.

Lemma measure_publishes_remapped_witness :
  events_of (@_measure datasheet 1000 {| st1 := 1; x := 10; y := 20; z := 30; st2 := 0 |})
            (bus_world 0 0)
  = [MagSetExternal false; MagSetTemperature (S754_zero false);
     MagUpdate 1000 20 10 (-30)].
Proof.
  destruct (@measure_publishes_remapped datasheet 1000
              {| st1 := 1; x := 10; y := 20; z := 30; st2 := 0 |} (bus_world 0 0))
    as (E & _).
  - vm_compute. discriminate.
  - apply (events_of_emits _ _ _ _ E).
Defined.

Lemma measure_drops_not_ready_witness :
  events_of (@_measure datasheet 1000 {| st1 := 2; x := 10; y := 20; z := 30; st2 := 0 |})
            (bus_world 0 0)
  = [].
Proof.
  destruct (@measure_drops_not_ready datasheet 1000
              {| st1 := 2; x := 10; y := 20; z := 30; st2 := 0 |} (bus_world 0 0))
    as (_ & E & _).
  - reflexivity.
  - exact E.
Defined.

Section BridgeClaims.

Context {hdr : Header}.

(** ** The bridge *)

Lemma passthrough_seq_run (calls : list (Z * Z * option Z)) :
  forall w : World,
    passthrough_seq calls w = (tt, emits (passthrough_seq_events calls) w).
Proof.
  induction calls as [|[[reg size] out] calls IH]; intros w.
  - cbn. now rewrite emits_nil.
  - cbn [passthrough_seq passthrough_seq_events flat_map fst snd].
    unfold bind. rewrite set_passthrough_run, IH, emits_emits. reflexivity.
Qed.

(** One bridge call is safe whatever the state of the proxy before it, and
    leaves the proxy as its last write says. *)
Lemma bridge_safe_passthrough
    (enabled : bool) (reg size : Z) (out : option Z) (rest : list Event) :
  proxy_regs_distinct ->
  bridge_safe enabled (passthrough_events reg size out ++ rest)
  = bridge_safe
      (negb (Z.land (u8 (Z.lor size BIT_I2C_SLV0_EN)) (u8 BIT_I2C_SLV0_EN) =? 0))
      rest.
Proof.
  intros Hd. unfold proxy_regs_distinct in Hd. cbn [In] in Hd.
  assert (Ha : (ICMREG_20948_I2C_SLV0_ADDR =? ICMREG_20948_I2C_SLV0_CTRL) = false)
    by (apply Z.eqb_neq; intuition congruence).
  assert (Hr : (ICMREG_20948_I2C_SLV0_REG =? ICMREG_20948_I2C_SLV0_CTRL) = false)
    by (apply Z.eqb_neq; intuition congruence).
  assert (Ho : (ICMREG_20948_I2C_SLV0_DO =? ICMREG_20948_I2C_SLV0_CTRL) = false)
    by (apply Z.eqb_neq; intuition congruence).
  unfold passthrough_events.
  destruct out; cbn [app bridge_safe];
    rewrite ?Z.eqb_refl, ?Ha, ?Hr, ?Ho; cbn [Z.land Z.eqb negb andb orb];
    rewrite ?Bool.orb_true_r; reflexivity.
Qed.

Lemma bridge_safe_passthrough_seq (calls : list (Z * Z * option Z)) :
  proxy_regs_distinct ->
  forall enabled : bool,
    bridge_safe enabled (passthrough_seq_events calls) = true.
Proof.
  intros Hd. induction calls as [|[[reg size] out] calls IH]; intros enabled.
  - reflexivity.
  - cbn [passthrough_seq_events flat_map fst snd].
    rewrite bridge_safe_passthrough by assumption. apply IH.
Qed.

(** C6: every bridge call first writes 0 to the proxy control register, then
    stages the output byte when writing, then programs the target address
    with the direction flag and the target register, and only then writes
    the size with the enable bit.  So in the calls of any sequence of bridge
    calls, whatever the proxy state before, the address, register and
    data-out registers are written only while the proxy is disabled. *)
Theorem passthrough_disables_before_reprogramming
    (calls : list (Z * Z * option Z)) (enabled : bool) (w : World) :
  proxy_regs_distinct ->
  (forall (reg size : Z) (out : option Z) (w' : World),
      events_of (set_passthrough reg size out) w'
      = [HostWriteReg ICMREG_20948_I2C_SLV0_CTRL 0]
        ++ match out with
           | Some v => [HostWriteReg ICMREG_20948_I2C_SLV0_DO (u8 v)]
           | None => []
           end
        ++ [HostWriteReg ICMREG_20948_I2C_SLV0_ADDR
              (u8 match out with
                  | Some _ => AK09916_I2C_ADDR
                  | None => Z.lor AK09916_I2C_ADDR BIT_I2C_READ_FLAG
                  end);
            HostWriteReg ICMREG_20948_I2C_SLV0_REG (u8 reg);
            HostWriteReg ICMREG_20948_I2C_SLV0_CTRL
              (u8 (Z.lor size BIT_I2C_SLV0_EN))])
  /\ bridge_safe enabled (events_of (passthrough_seq calls) w) = true.
Proof.
  intros Hd. split.
  - intros reg size out w'.
    apply (events_of_emits _ _ _ _ (set_passthrough_run reg size out w')).
  - rewrite (events_of_emits _ _ _ _ (passthrough_seq_run calls w)).
    apply bridge_safe_passthrough_seq. exact Hd.
Qed.

End BridgeClaims.

Lemma passthrough_disables_before_reprogramming_witness :
  @bridge_safe datasheet true
    (events_of (@passthrough_seq datasheet [(0x32, 1, Some 1); (0x01, 1, None); (0x10, 8, None)])
               (bus_world 0 0))
  = true.
Proof.
  destruct (@passthrough_disables_before_reprogramming datasheet
              [(0x32, 1, Some 1); (0x01, 1, None); (0x10, 8, None)] true
              (bus_world 0 0)) as (_ & E).
  - unfold proxy_regs_distinct. cbn.
    intros [E|[E|[E|[]]]]; discriminate E.
  - exact E.
Defined.

(** The checker does reject a trace that reprograms the target register
    while the proxy is enabled. *)
Example bridge_safe_rejects :
  @bridge_safe datasheet false
    [HostWriteReg 0x305 0x81; HostWriteReg 0x304 0x11] = false.
Proof. reflexivity. Qed.

Section CalibrationClaims.

Context {hdr : Header}.

(** ** Calibration *)

Lemma ak09916_read_adjustments_run (w : World) :
  ak09916_read_adjustments w
  = if usable (rx_byte w 0) && usable (rx_byte w 1) && usable (rx_byte w 2)
    then (true,
          advance 3
            (emits (fuse_read_events ++ power_down_events
                    ++ [MagSetSensitivity (asa_of_byte (rx_byte w 0))
                                          (asa_of_byte (rx_byte w 1))
                                          (asa_of_byte (rx_byte w 2))]) w))
    else (false, advance 3 (emits (fuse_read_events ++ power_down_events) w)).
Proof.
  unfold ak09916_read_adjustments, fuse_read_events, power_down_events, bind.
  rewrite write_reg_run. unfold px4_usleep, interface_read, emit.
  rewrite write_reg_run.
  change (rx_bytes _ 3) with [rx_byte w 0; rx_byte w 1; rx_byte w 2].
  cbn [adjustments_for nth ak09916_ASA_uninit array_set].
  fold (usable (rx_byte w 0)). destruct (usable (rx_byte w 0)); [|
    rewrite ?emits_advance, ?emits_emits, <- ?app_assoc; reflexivity].
  fold (usable (rx_byte w 1)). destruct (usable (rx_byte w 1)); [|
    rewrite ?emits_advance, ?emits_emits, <- ?app_assoc; reflexivity].
  fold (usable (rx_byte w 2)). destruct (usable (rx_byte w 2)); [|
    rewrite ?emits_advance, ?emits_emits, <- ?app_assoc; reflexivity].
  cbn [andb nth]. unfold emit, ret.
  rewrite ?emits_advance, ?emits_emits, <- ?app_assoc. reflexivity.
Qed.

Lemma usable_range (v : Z) : usable v = true <-> v <> 0 /\ v <> 255.
Proof.
  unfold usable. rewrite Bool.andb_true_iff, !Bool.negb_true_iff, !Z.eqb_neq.
  intuition congruence.
Qed.

(** The conversion is exact on every byte that passes the sentinel test:
    checked on each of the 254 values. *)
Lemma asa_of_byte_exact (v : Z) :
  1 <= v <= 254 ->
  f32_is_finite (asa_of_byte v) = true
  /\ (f32_to_Q (asa_of_byte v) == sensitivity_Q v)%Q.
Proof.
  intros Hv.
  assert (Hall : forallb asa_exact (map Z.of_nat (seq 1 254)) = true)
    by (vm_compute; reflexivity).
  rewrite forallb_forall in Hall.
  assert (Hin : In v (map Z.of_nat (seq 1 254))).
  { apply in_map_iff. exists (Z.to_nat v). split; [lia|].
    apply in_seq. lia. }
  specialize (Hall v Hin). unfold asa_exact in Hall.
  apply Bool.andb_true_iff in Hall as [Hfin Heq].
  split; [exact Hfin | apply Qeq_bool_iff; exact Heq].
Qed.

(** The values the spec lists: 128 gives 1.0, 1 gives 129/256 (about
    0.504), 254 gives 382/256 (about 1.492). *)
Example asa_of_byte_samples :
  asa_of_byte 128 = S754_finite false 8388608 (-23)
  /\ (f32_to_Q (asa_of_byte 128) == 1)%Q
  /\ (f32_to_Q (asa_of_byte 1) == 129 # 256)%Q
  /\ (f32_to_Q (asa_of_byte 254) == 382 # 256)%Q.
Proof. repeat split. Qed.

(** C3: when one of the three calibration bytes is [0x00] or [0xFF],
    [ak09916_read_adjustments] returns [false] and [set_sensitivity] is not
    called: the calls made are those up to the power-down write. *)
Theorem adjustments_rejected_on_sentinel (w : World) :
  (exists i, (i < 3)%nat /\ (rx_byte w i = 0 \/ rx_byte w i = 0xff)) ->
  fst (ak09916_read_adjustments w) = false
  /\ events_of ak09916_read_adjustments w = fuse_read_events ++ power_down_events
  /\ count is_set_sensitivity (events_of ak09916_read_adjustments w) = 0%nat.
Proof.
  intros (i & Hi & Hsent).
  assert (Hbad : usable (rx_byte w i) = false).
  { unfold usable. destruct Hsent as [-> | ->]; reflexivity. }
  assert (E : ak09916_read_adjustments w
              = (false, advance 3 (emits (fuse_read_events ++ power_down_events) w))).
  { rewrite ak09916_read_adjustments_run.
    destruct i as [|[|[|i]]]; [| | |lia]; rewrite Hbad;
      rewrite ?Bool.andb_false_r; reflexivity. }
  rewrite (events_of_run _ _ _ _ _ E), E.
  repeat split; reflexivity.
Qed.

(** C7: when the three calibration bytes are all in [1, 254],
    [ak09916_read_adjustments] returns [true] and calls [set_sensitivity]
    exactly once, as its last call, with one binary32 value per axis; the
    value for byte [v] is finite and equals [(v - 128) / 256 + 1] exactly. *)
Theorem adjustments_sensitivity (w : World) :
  (forall i, (i < 3)%nat -> 1 <= rx_byte w i <= 254) ->
  fst (ak09916_read_adjustments w) = true
  /\ events_of ak09916_read_adjustments w
     = fuse_read_events ++ power_down_events
       ++ [MagSetSensitivity (asa_of_byte (rx_byte w 0))
                             (asa_of_byte (rx_byte w 1))
                             (asa_of_byte (rx_byte w 2))]
  /\ count is_set_sensitivity (events_of ak09916_read_adjustments w) = 1%nat
  /\ (forall i, (i < 3)%nat ->
        f32_is_finite (asa_of_byte (rx_byte w i)) = true
        /\ (f32_to_Q (asa_of_byte (rx_byte w i))
            == inject_Z (rx_byte w i - 128) / inject_Z 256 + 1)%Q).
Proof.
  intros Hin.
  assert (Hok : forall i, (i < 3)%nat -> usable (rx_byte w i) = true).
  { intros i Hi. apply usable_range. specialize (Hin i Hi). lia. }
  assert (E : ak09916_read_adjustments w
              = (true,
                 advance 3
                   (emits (fuse_read_events ++ power_down_events
                           ++ [MagSetSensitivity (asa_of_byte (rx_byte w 0))
                                 (asa_of_byte (rx_byte w 1))
                                 (asa_of_byte (rx_byte w 2))]) w))).
  { rewrite ak09916_read_adjustments_run.
    rewrite (Hok 0%nat), (Hok 1%nat), (Hok 2%nat) by lia. reflexivity. }
  rewrite (events_of_run _ _ _ _ _ E), E.
  repeat split; try reflexivity.
  - apply asa_of_byte_exact. apply Hin. assumption.
  - apply asa_of_byte_exact. apply Hin. assumption.
Qed.

(** C10: whatever the three bytes are, the power-down write follows the read
    of the bytes and comes before the result of the sentinel test shows: on
    failure it is the last thing done, on success only the call of
    [set_sensitivity] follows it. *)
Theorem adjustments_power_down_always (w : World) :
  exists tail : list Event,
    events_of ak09916_read_adjustments w
    = (write_reg_events AK09916REG_CNTL1
         (Z.lor AK09916_FUZE_MODE AK09916_16BIT_ADC)
       ++ [Usleep 50; InterfaceRead AK09916REG_ASAX 3])
      ++ write_reg_events AK09916REG_CNTL1 AK09916_POWERDOWN_MODE
      ++ tail
    /\ (fst (ak09916_read_adjustments w) = false -> tail = [])
    /\ (fst (ak09916_read_adjustments w) = true ->
        exists a b c, tail = [MagSetSensitivity a b c]).
Proof.
  pose proof (ak09916_read_adjustments_run w) as E.
  destruct (usable (rx_byte w 0) && usable (rx_byte w 1) && usable (rx_byte w 2)).
  - eexists. rewrite (events_of_run _ _ _ _ _ E), E. cbn [fst].
    split; [rewrite <- app_assoc; reflexivity|].
    split; [discriminate | intros _; eauto].
  - exists []. rewrite (events_of_run _ _ _ _ _ E), E. cbn [fst].
    split; [rewrite app_nil_r; reflexivity|].
    split; [reflexivity | discriminate].
Qed.

End CalibrationClaims.

Lemma adjustments_rejected_on_sentinel_witness :
  fst (@ak09916_read_adjustments datasheet (fuse_world 128 0xff 130)) = false
  /\ count is_set_sensitivity
       (events_of (@ak09916_read_adjustments datasheet) (fuse_world 128 0xff 130))
     = 0%nat.
Proof.
  destruct (@adjustments_rejected_on_sentinel datasheet (fuse_world 128 0xff 130))
    as (E & _ & Hc).
  - exists 1%nat. split; [lia | right; reflexivity].
  - split; assumption.
Defined.

Lemma adjustments_sensitivity_witness :
  fst (@ak09916_read_adjustments datasheet (fuse_world 1 128 254)) = true
  /\ (f32_to_Q (asa_of_byte 128) == sensitivity_Q 128)%Q.
Proof.
  destruct (@adjustments_sensitivity datasheet (fuse_world 1 128 254))
    as (E & _ & _ & Hq).
  - intros i Hi. destruct i as [|[|[|i]]]; vm_compute; try lia; split; discriminate.
  - split; [exact E|].
    destruct (Hq 1%nat ltac:(lia)) as [_ Hv]. exact Hv.
Defined.

(** * Further properties of the driver *)

Section BridgeState.

Context {hdr : Header}.

(** ** The proxy across the register accessors *)

Lemma bridge_safe_app (l1 l2 : list Event) :
  forall enabled : bool,
    bridge_safe enabled (l1 ++ l2)
    = bridge_safe enabled l1 && bridge_safe (bridge_after enabled l1) l2.
Proof.
  induction l1 as [|e l1 IH]; intros enabled; [reflexivity|].
  destruct e; cbn [app bridge_safe bridge_after]; try apply IH.
  destruct (reg =? ICMREG_20948_I2C_SLV0_CTRL); [apply IH|].
  destruct ((reg =? ICMREG_20948_I2C_SLV0_ADDR)
            || (reg =? ICMREG_20948_I2C_SLV0_REG)
            || (reg =? ICMREG_20948_I2C_SLV0_DO)); [|apply IH].
  rewrite IH, Bool.andb_assoc. reflexivity.
Qed.

Lemma bridge_after_app (l1 l2 : list Event) :
  forall enabled : bool,
    bridge_after enabled (l1 ++ l2)
    = bridge_after (bridge_after enabled l1) l2.
Proof.
  induction l1 as [|e l1 IH]; intros enabled; [reflexivity|].
  destruct e; cbn [app bridge_after]; try apply IH.
  destruct (reg =? ICMREG_20948_I2C_SLV0_CTRL); apply IH.
Qed.

Lemma bridge_after_passthrough
    (enabled : bool) (reg size : Z) (out : option Z) :
  proxy_regs_distinct ->
  bridge_after enabled (passthrough_events reg size out)
  = negb (Z.land (u8 (Z.lor size BIT_I2C_SLV0_EN)) (u8 BIT_I2C_SLV0_EN) =? 0).
Proof.
  intros Hd. unfold proxy_regs_distinct in Hd. cbn [In] in Hd.
  assert (Ha : (ICMREG_20948_I2C_SLV0_ADDR =? ICMREG_20948_I2C_SLV0_CTRL) = false)
    by (apply Z.eqb_neq; intuition congruence).
  assert (Hr : (ICMREG_20948_I2C_SLV0_REG =? ICMREG_20948_I2C_SLV0_CTRL) = false)
    by (apply Z.eqb_neq; intuition congruence).
  assert (Ho : (ICMREG_20948_I2C_SLV0_DO =? ICMREG_20948_I2C_SLV0_CTRL) = false)
    by (apply Z.eqb_neq; intuition congruence).
  unfold passthrough_events.
  destruct out; cbn [app bridge_after];
    rewrite ?Z.eqb_refl, ?Ha, ?Hr, ?Ho; reflexivity.
Qed.

Lemma bridge_safe_passthrough_alone
    (enabled : bool) (reg size : Z) (out : option Z) :
  proxy_regs_distinct ->
  bridge_safe enabled (passthrough_events reg size out) = true.
Proof.
  intros Hd.
  rewrite <- (app_nil_r (passthrough_events reg size out)).
  rewrite bridge_safe_passthrough by assumption. reflexivity.
Qed.

Lemma bridge_write_reg_events (enabled : bool) (reg value : Z) :
  proxy_regs_distinct ->
  bridge_safe enabled (write_reg_events reg value) = true
  /\ bridge_after enabled (write_reg_events reg value) = false.
Proof.
  intros Hd. unfold write_reg_events.
  rewrite bridge_safe_app, bridge_after_app.
  rewrite bridge_safe_passthrough_alone, bridge_after_passthrough by assumption.
  cbn [bridge_safe bridge_after andb]. rewrite Z.eqb_refl.
  split; reflexivity.
Qed.

Lemma bridge_read_reg_events (enabled : bool) (reg : Z) :
  proxy_regs_distinct ->
  bridge_safe enabled (read_reg_events reg) = true
  /\ bridge_after enabled (read_reg_events reg) = false.
Proof.
  intros Hd. unfold read_reg_events.
  rewrite bridge_safe_app, bridge_after_app.
  rewrite bridge_safe_passthrough_alone, bridge_after_passthrough by assumption.
  cbn [bridge_safe bridge_after andb]. rewrite Z.eqb_refl.
  split; reflexivity.
Qed.

End BridgeState.

Section AccessorFacts.

Context {hdr : Header}.

(** X1: [read_reg] returns 0 whatever byte the bus delivers: [buf] is
    handed to [read] by value and never written.  It still makes exactly one
    read call; whatever the proxy state before, it reprograms the proxy only
    while disabled, leaves it disabled, and sleeps 50 microseconds.  The
    register number enters modulo 256. *)
Theorem read_reg_transfer (reg : Z) (enabled : bool) (w : World) :
  proxy_regs_distinct ->
  fst (read_reg reg w) = 0
  /\ attempts (events_of (read_reg reg) w) = 1%nat
  /\ bridge_safe enabled (events_of (read_reg reg) w) = true
  /\ bridge_after enabled (events_of (read_reg reg) w) = false
  /\ slept (events_of (read_reg reg) w) = 50
  /\ read_reg (reg + 256) w = read_reg reg w.
Proof.
  intros Hd.
  rewrite (events_of_run _ _ _ _ _ (read_reg_run reg w)).
  rewrite !read_reg_run. cbn [fst snd].
  destruct (bridge_read_reg_events enabled reg Hd) as [Hs Ha].
  split; [reflexivity|]. split; [reflexivity|].
  split; [exact Hs|]. split; [exact Ha|].
  split; [reflexivity|].
  unfold read_reg_events, u8.
  replace ((reg + 256) mod 256) with (reg mod 256); [reflexivity|].
  rewrite <- (Z.mul_1_l 256) at 2. now rewrite Z.mod_add.
Qed.

(** X2: [write_reg] consumes no bus input and changes nothing but the
    trace; whatever the proxy state before, it reprograms the proxy only
    while disabled, leaves it disabled, and sleeps 50 microseconds.  The
    register number and the value enter modulo 256. *)
Theorem write_reg_transfer (reg value : Z) (enabled : bool) (w : World) :
  proxy_regs_distinct ->
  snd (write_reg reg value w) = emits (events_of (write_reg reg value) w) w
  /\ bus_pos (snd (write_reg reg value w)) = bus_pos w
  /\ bridge_safe enabled (events_of (write_reg reg value) w) = true
  /\ bridge_after enabled (events_of (write_reg reg value) w) = false
  /\ slept (events_of (write_reg reg value) w) = 50
  /\ write_reg (reg + 256) (value + 256) w = write_reg reg value w.
Proof.
  intros Hd.
  rewrite (events_of_emits _ _ _ _ (write_reg_run reg value w)).
  rewrite !write_reg_run. cbn [fst snd].
  destruct (bridge_write_reg_events enabled reg value Hd) as [Hs Ha].
  split; [reflexivity|]. split; [reflexivity|].
  split; [exact Hs|]. split; [exact Ha|]. split; [reflexivity|].
  unfold write_reg_events, u8.
  replace ((reg + 256) mod 256) with (reg mod 256)
    by (rewrite <- (Z.mul_1_l 256) at 2; now rewrite Z.mod_add).
  replace ((value + 256) mod 256) with (value mod 256)
    by (rewrite <- (Z.mul_1_l 256) at 2; now rewrite Z.mod_add).
  reflexivity.
Qed.

End AccessorFacts.

Lemma datasheet_proxy_regs_distinct : @proxy_regs_distinct datasheet.
Proof.
  unfold proxy_regs_distinct. cbn.
  intros [E|[E|[E|[]]]]; discriminate E.
Qed.

Lemma read_reg_transfer_witness :
  rx_byte (bus_world 0 0) 0 = 0x09
  /\ fst (@read_reg datasheet 0x01 (bus_world 0 0)) = 0
  /\ @bridge_after datasheet true
       (events_of (@read_reg datasheet 0x01) (bus_world 0 0)) = false.
Proof.
  destruct (@read_reg_transfer datasheet 0x01 true (bus_world 0 0)
              datasheet_proxy_regs_distinct)
    as (E & _ & _ & Ha & _).
  split; [reflexivity|]. split; [exact E | exact Ha].
Defined.

Lemma write_reg_transfer_witness :
  @bridge_after datasheet true
    (events_of (@write_reg datasheet 0x32 0x01) (bus_world 0 0)) = false
  /\ slept (events_of (@write_reg datasheet 0x32 0x01) (bus_world 0 0)) = 50.
Proof.
  destruct (@write_reg_transfer datasheet 0x32 0x01 true (bus_world 0 0)
              datasheet_proxy_regs_distinct)
    as (_ & _ & _ & Ha & Hs & _).
  split; assumption.
Defined.

Section SetupFacts.

Context {hdr : Header}.

(** ** [ak09916_setup] on every input *)

Lemma land_u8_lor (s e : Z) : Z.land (u8 (Z.lor s e)) (u8 e) = u8 e.
Proof.
  unfold u8. change 256 with (2 ^ 8).
  rewrite <- !Z.land_ones by lia.
  apply Z.bits_inj'. intros n Hn.
  rewrite !Z.land_spec, Z.lor_spec.
  destruct (Z.testbit s n), (Z.testbit e n), (Z.testbit (Z.ones 8) n);
    reflexivity.
Qed.

Lemma slept_app (l1 l2 : list Event) : slept (l1 ++ l2) = slept l1 + slept l2.
Proof.
  induction l1 as [|e l1 IH]; [reflexivity|].
  destruct e; cbn [app slept]; rewrite IH; lia.
Qed.

Lemma slept_failed_rounds (ids : list Z) :
  forall retries, slept (failed_rounds ids retries) = 300 * Z.of_nat (length ids).
Proof.
  induction ids as [|id ids IH]; intros retries; [reflexivity|].
  cbn [failed_rounds length]. rewrite !slept_app, IH.
  change (slept attempt_events) with 100.
  change (slept (recover_events id (retries - 1))) with 200. lia.
Qed.

Lemma bridge_attempt_events (enabled : bool) :
  proxy_regs_private ->
  bridge_safe enabled attempt_events = true
  /\ bridge_after enabled attempt_events = false.
Proof.
  intros [Hd Hm]. cbn [In] in Hm.
  assert (Hc : (ICMREG_20948_I2C_MST_CTRL =? ICMREG_20948_I2C_SLV0_CTRL) = false)
    by (apply Z.eqb_neq; intuition congruence).
  assert (Ha : (ICMREG_20948_I2C_MST_CTRL =? ICMREG_20948_I2C_SLV0_ADDR) = false)
    by (apply Z.eqb_neq; intuition congruence).
  assert (Hr : (ICMREG_20948_I2C_MST_CTRL =? ICMREG_20948_I2C_SLV0_REG) = false)
    by (apply Z.eqb_neq; intuition congruence).
  assert (Ho : (ICMREG_20948_I2C_MST_CTRL =? ICMREG_20948_I2C_SLV0_DO) = false)
    by (apply Z.eqb_neq; intuition congruence).
  unfold attempt_events, master_i2c_events, master_enable_event,
    master_clock_event, device_reset_events.
  cbn [app bridge_safe bridge_after]. rewrite Hc, Ha, Hr, Ho. cbn [orb].
  rewrite bridge_safe_app, !bridge_after_app.
  destruct (bridge_write_reg_events enabled AK09916REG_CNTL3 AK09916_RESET Hd)
    as [-> ->].
  destruct (bridge_read_reg_events false AK09916REG_WIA Hd) as [-> ->].
  split; reflexivity.
Qed.

Lemma bridge_failed_rounds (ids : list Z) :
  proxy_regs_private ->
  forall (retries : Z) (enabled : bool),
    bridge_safe enabled (failed_rounds ids retries) = true
    /\ bridge_after enabled (failed_rounds ids retries)
       = match ids with [] => enabled | _ => false end.
Proof.
  intros Hp. induction ids as [|id ids IH]; intros retries enabled.
  - split; reflexivity.
  - cbn [failed_rounds].
    rewrite !bridge_safe_app, !bridge_after_app.
    destruct (bridge_attempt_events enabled Hp) as [-> ->].
    cbn [recover_events master_reset_event bridge_safe bridge_after andb].
    destruct (IH (retries - 1) false) as [-> ->].
    split; [reflexivity | destruct ids; reflexivity].
Qed.

Lemma bridge_done_events (enabled : bool) :
  proxy_regs_private ->
  bridge_safe enabled done_events = true
  /\ bridge_after enabled done_events = negb (u8 BIT_I2C_SLV0_EN =? 0).
Proof.
  intros [Hd _]. unfold done_events.
  rewrite bridge_safe_app, bridge_after_app.
  destruct (bridge_write_reg_events enabled AK09916REG_CNTL2
              AK09916_CNTL2_CONTINOUS_MODE_100HZ Hd) as [-> ->].
  rewrite bridge_safe_passthrough_alone, bridge_after_passthrough by assumption.
  rewrite land_u8_lor. split; reflexivity.
Qed.

Lemma bridge_disable_events (enabled : bool) :
  proxy_regs_private ->
  bridge_safe enabled disable_events = true
  /\ bridge_after enabled disable_events = enabled.
Proof.
  intros [_ Hm]. cbn [In] in Hm.
  assert (Hc : (ICMREG_20948_I2C_MST_CTRL =? ICMREG_20948_I2C_SLV0_CTRL) = false)
    by (apply Z.eqb_neq; intuition congruence).
  assert (Ha : (ICMREG_20948_I2C_MST_CTRL =? ICMREG_20948_I2C_SLV0_ADDR) = false)
    by (apply Z.eqb_neq; intuition congruence).
  assert (Hr : (ICMREG_20948_I2C_MST_CTRL =? ICMREG_20948_I2C_SLV0_REG) = false)
    by (apply Z.eqb_neq; intuition congruence).
  assert (Ho : (ICMREG_20948_I2C_MST_CTRL =? ICMREG_20948_I2C_SLV0_DO) = false)
    by (apply Z.eqb_neq; intuition congruence).
  unfold disable_events. cbn [bridge_safe bridge_after].
  rewrite Hc, Ha, Hr, Ho. split; reflexivity.
Qed.

End SetupFacts.

Section SetupExtras.

Context {hdr : Header}.

(** X3: on every bus input and whatever the proxy state before,
    [ak09916_setup] writes the proxy address, register and data-out
    registers only while the proxy is disabled; with an identity constant
    other than 0 it leaves the proxy disabled. *)
Theorem setup_keeps_bridge_protocol (enabled : bool) (w : World) :
  proxy_regs_private ->
  bridge_safe enabled (events_of ak09916_setup w) = true
  /\ (AK09916_DEVICE_ID <> 0 ->
      bridge_after enabled (events_of ak09916_setup w) = false).
Proof.
  intros Hp.
  destruct (ak09916_setup_cases w) as [(Hid & E) | (Hid & E)];
    rewrite (events_of_run _ _ _ _ _ E);
    rewrite !bridge_safe_app, ?bridge_after_app.
  - destruct (bridge_attempt_events enabled Hp) as [-> ->].
    destruct (bridge_done_events false Hp) as [-> _].
    split; [reflexivity|]. intros Hne. contradiction.
  - destruct (bridge_failed_rounds (repeat 0 20) Hp 20 enabled) as [-> Ha].
    rewrite Ha. cbn [repeat].
    destruct (bridge_disable_events false Hp) as [-> ->].
    split; reflexivity.
Qed.

(** X4: the result and the calls of [ak09916_setup] do not depend on the
    bytes the bus delivers; with an identity constant other than 0 every run
    makes twenty attempts and returns [-EIO]. *)
Theorem setup_result (w w' : World) :
  fst (ak09916_setup w) = fst (ak09916_setup w')
  /\ events_of ak09916_setup w = events_of ak09916_setup w'
  /\ (AK09916_DEVICE_ID <> 0 ->
      fst (ak09916_setup w) = - EIO
      /\ attempts (events_of ak09916_setup w) = 20%nat).
Proof.
  destruct (ak09916_setup_cases w) as [(Hid & E) | (Hid & E)];
    destruct (ak09916_setup_cases w') as [(Hid' & E') | (Hid' & E')];
    try contradiction;
    rewrite (events_of_run _ _ _ _ _ E), (events_of_run _ _ _ _ _ E'), E, E';
    cbn [fst].
  - split; [reflexivity|]. split; [reflexivity|]. intros Hne. contradiction.
  - split; [reflexivity|]. split; [reflexivity|]. intros _.
    split; [reflexivity|].
    rewrite attempts_app, attempts_failed_rounds, repeat_length. reflexivity.
Qed.

(** X5: [ak09916_setup] blocks in [px4_usleep] for between 150 and 6000
    microseconds; with an identity constant other than 0 it is 6000 on every
    run: twenty rounds of 50 (reset write), 50 (identity read) and 200
    (recovery). *)
Theorem setup_sleep_budget (w : World) :
  150 <= slept (events_of ak09916_setup w) <= 6000
  /\ (AK09916_DEVICE_ID <> 0 -> slept (events_of ak09916_setup w) = 6000).
Proof.
  destruct (ak09916_setup_cases w) as [(Hid & E) | (Hid & E)];
    rewrite (events_of_run _ _ _ _ _ E).
  - change (slept (attempt_events ++ done_events)) with 150.
    split; [lia|]. intros Hne. contradiction.
  - rewrite slept_app, slept_failed_rounds, repeat_length.
    change (slept disable_events) with 0.
    split; [lia|]. intros _. reflexivity.
Qed.

End SetupExtras.

Lemma datasheet_proxy_regs_private : @proxy_regs_private datasheet.
Proof.
  split; [exact datasheet_proxy_regs_distinct|].
  cbn. intros [E|[E|[E|[E|[]]]]]; discriminate E.
Qed.

Lemma setup_keeps_bridge_protocol_witness :
  @bridge_safe datasheet true
    (events_of (@ak09916_setup datasheet) (bus_world 2 0)) = true
  /\ @bridge_after datasheet true
       (events_of (@ak09916_setup datasheet) (bus_world 2 0)) = false.
Proof.
  destruct (@setup_keeps_bridge_protocol datasheet true (bus_world 2 0)
              datasheet_proxy_regs_private) as (Hs & Ha).
  split; [exact Hs|].
  apply Ha. cbn. discriminate.
Defined.

Section ResetExtras.

Context {hdr : Header}.

(** ** [ak09916_reset] *)

(** What a caller can rely on after one run of [ak09916_setup]. *)
Lemma ak09916_setup_summary (w : World) :
  exists (rv : Z) (l : list Event),
    ak09916_setup w = (rv, advance (attempts l) (emits l w))
    /\ ((rv = OK /\ (1 <= attempts l <= 20)%nat /\ 150 <= slept l <= 5850)
        \/ (rv = - EIO /\ attempts l = 20%nat /\ slept l = 6000))
    /\ (proxy_regs_private ->
        forall enabled, bridge_safe enabled l = true).
Proof.
  destruct (ak09916_setup_cases w) as [(Hid & E) | (Hid & E)].
  - exists OK, (attempt_events ++ done_events).
    split; [exact E|]. split.
    + left. split; [reflexivity|].
      change (attempts (attempt_events ++ done_events)) with 1%nat.
      change (slept (attempt_events ++ done_events)) with 150. lia.
    + intros Hp enabled. rewrite bridge_safe_app.
      destruct (bridge_attempt_events enabled Hp) as [-> ->].
      destruct (bridge_done_events false Hp) as [-> _]. reflexivity.
  - exists (- EIO), (failed_rounds (repeat 0 20) 20 ++ disable_events).
    assert (Ha : attempts (failed_rounds (repeat 0 20) 20 ++ disable_events)
                 = 20%nat).
    { rewrite attempts_app, attempts_failed_rounds, repeat_length.
      reflexivity. }
    rewrite Ha. split; [exact E|]. split.
    + right. split; [reflexivity|]. split; [reflexivity|].
      rewrite slept_app, slept_failed_rounds, repeat_length.
      change (slept disable_events) with 0. lia.
    + intros Hp enabled. rewrite !bridge_safe_app.
      destruct (bridge_failed_rounds (repeat 0 20) Hp 20 enabled) as [-> _].
      destruct (bridge_disable_events
                  (bridge_after enabled (failed_rounds (repeat 0 20) 20)) Hp)
        as [-> _].
      reflexivity.
Qed.

(** After a successful first setup: the reset command, then a second setup. *)
Lemma ak09916_reset_after_success (w w1 : World) :
  ak09916_setup w = (OK, w1) ->
  ak09916_reset w = ak09916_setup (emits device_reset_events w1).
Proof.
  intros E. unfold ak09916_reset, bind. rewrite E, Z.eqb_refl.
  rewrite write_reg_run. reflexivity.
Qed.

(** After a failed first setup: nothing more. *)
Lemma ak09916_reset_after_failure (w w1 : World) :
  OK <> - EIO ->
  ak09916_setup w = (- EIO, w1) ->
  ak09916_reset w = (- EIO, w1).
Proof.
  intros Hne E. unfold ak09916_reset, bind. rewrite E.
  replace (- EIO =? OK) with false
    by (symmetry; apply Z.eqb_neq; congruence).
  reflexivity.
Qed.

(** X6: when the first setup of [ak09916_reset] fails (twenty failed
    identity checks, the constant being compared with [buf = 0]), the reset
    stops there: it returns [-EIO] and makes the calls of that setup and no
    other, so no reset command is sent and no second setup is tried. *)
Theorem reset_stops_after_failed_setup (w : World) :
  OK <> - EIO ->
  AK09916_DEVICE_ID <> 0 ->
  ak09916_reset w = ak09916_setup w
  /\ fst (ak09916_reset w) = - EIO
  /\ events_of ak09916_reset w
     = failed_rounds (repeat 0 20) 20 ++ disable_events
  /\ attempts (events_of ak09916_reset w) = 20%nat.
Proof.
  intros Hne Hbad. pose proof (ak09916_setup_failure w Hbad) as E.
  pose proof (ak09916_reset_after_failure w _ Hne E) as Er.
  rewrite (events_of_run _ _ _ _ _ Er), Er, E.
  repeat split.
Qed.

(** X8: on every bus input [ak09916_reset] returns [OK] or [-EIO], makes
    between 1 and 40 identity-check attempts, blocks in [px4_usleep] for at
    most 11900 microseconds, and writes the proxy address, register and
    data-out registers only while the proxy is disabled. *)
Theorem reset_bounds (enabled : bool) (w : World) :
  OK <> - EIO ->
  proxy_regs_private ->
  (fst (ak09916_reset w) = OK \/ fst (ak09916_reset w) = - EIO)
  /\ (1 <= attempts (events_of ak09916_reset w) <= 40)%nat
  /\ 150 <= slept (events_of ak09916_reset w) <= 11900
  /\ bridge_safe enabled (events_of ak09916_reset w) = true.
Proof.
  intros Hne Hp.
  destruct (ak09916_setup_summary w) as (rv & l & E & Hcase & Hsafe).
  destruct Hcase as [(-> & Hatt & Hsl) | (-> & Hatt & Hsl)].
  - pose proof (ak09916_reset_after_success w _ E) as Er.
    destruct (ak09916_setup_summary
                (emits device_reset_events (advance (attempts l) (emits l w))))
      as (rv2 & l2 & E2 & Hcase2 & Hsafe2).
    rewrite E2 in Er.
    rewrite emits_advance, emits_emits, emits_advance, emits_emits,
      advance_advance, <- !app_assoc in Er.
    rewrite (events_of_run _ _ _ _ _ Er), Er. cbn [fst].
    rewrite !attempts_app, !slept_app, !bridge_safe_app.
    change (attempts device_reset_events) with 0%nat.
    change (slept device_reset_events) with 50.
    rewrite (Hsafe Hp), (Hsafe2 Hp).
    destruct Hp as [Hd Hm].
    destruct (bridge_write_reg_events (bridge_after enabled l)
                AK09916REG_CNTL3 AK09916_RESET Hd) as [Hw _].
    unfold device_reset_events. rewrite Hw.
    destruct Hcase2 as [(-> & Hatt2 & Hsl2) | (-> & Hatt2 & Hsl2)];
      (split; [auto|]); (split; [lia|]); (split; [lia | reflexivity]).
  - pose proof (ak09916_reset_after_failure w _ Hne E) as Er.
    rewrite (events_of_run _ _ _ _ _ Er), Er. cbn [fst].
    split; [right; reflexivity|]. split; [lia|]. split; [lia|].
    apply Hsafe. exact Hp.
Qed.

End ResetExtras.

Lemma reset_stops_after_failed_setup_witness :
  fst (@ak09916_reset datasheet (bus_world 20 0)) = -5
  /\ attempts (events_of (@ak09916_reset datasheet) (bus_world 20 0)) = 20%nat.
Proof.
  destruct (@reset_stops_after_failed_setup datasheet (bus_world 20 0))
    as (_ & Hr & _ & Ha).
  - cbn. discriminate.
  - cbn. discriminate.
  - split; assumption.
Defined.

Lemma reset_bounds_witness :
  (1 <= attempts (events_of (@ak09916_reset datasheet) (bus_world 1 9)) <= 40)%nat.
Proof.
  destruct (@reset_bounds datasheet true (bus_world 1 9)) as (_ & Ha & _).
  - cbn. discriminate.
  - exact datasheet_proxy_regs_private.
  - exact Ha.
Defined.

Section CalibrationExtras.

Context {hdr : Header}.

(** ** More on calibration *)

(** X9: whatever the calibration bytes are, [ak09916_read_adjustments]
    reads exactly three bus bytes, blocks in [px4_usleep] for 150
    microseconds, writes the proxy address, register and data-out registers
    only while the proxy is disabled, and leaves the proxy disabled. *)
Theorem read_adjustments_footprint (enabled : bool) (w : World) :
  proxy_regs_distinct ->
  bus_pos (snd (ak09916_read_adjustments w)) = (bus_pos w + 3)%nat
  /\ slept (events_of ak09916_read_adjustments w) = 150
  /\ bridge_safe enabled (events_of ak09916_read_adjustments w) = true
  /\ bridge_after enabled (events_of ak09916_read_adjustments w) = false.
Proof.
  intros Hd.
  assert (Hpre : bridge_safe enabled (fuse_read_events ++ power_down_events) = true
                 /\ bridge_after enabled (fuse_read_events ++ power_down_events)
                    = false).
  { unfold fuse_read_events, power_down_events.
    rewrite !bridge_safe_app, !bridge_after_app.
    destruct (bridge_write_reg_events enabled AK09916REG_CNTL1
                (Z.lor AK09916_FUZE_MODE AK09916_16BIT_ADC) Hd) as [-> ->].
    cbn [bridge_safe bridge_after andb].
    destruct (bridge_write_reg_events false AK09916REG_CNTL1
                AK09916_POWERDOWN_MODE Hd) as [-> ->].
    split; reflexivity. }
  destruct Hpre as [Hs Ha].
  pose proof (ak09916_read_adjustments_run w) as E.
  destruct (usable (rx_byte w 0) && usable (rx_byte w 1) && usable (rx_byte w 2));
    rewrite (events_of_run _ _ _ _ _ E), E; cbn [snd].
  - rewrite app_assoc, slept_app.
    rewrite (bridge_safe_app (fuse_read_events ++ power_down_events)).
    rewrite (bridge_after_app (fuse_read_events ++ power_down_events)).
    rewrite Hs, Ha. repeat split.
  - rewrite Hs, Ha. repeat split.
Qed.

(** X10: the conversion loop never hands on an element of the
    uninitialised array: whatever the array holds on entry, the loop gives
    the three converted bytes when all three pass the sentinel test, and
    nothing as soon as one fails. *)
Theorem adjustments_for_ignores_initial_array
    (r0 r1 r2 : Z) (ak09916_ASA : list float32) :
  length ak09916_ASA = 3%nat ->
  adjustments_for 3 0 [r0; r1; r2] ak09916_ASA
  = if usable r0 && usable r1 && usable r2
    then Some [asa_of_byte r0; asa_of_byte r1; asa_of_byte r2]
    else None.
Proof.
  intros Hlen.
  destruct ak09916_ASA as [|a0 [|a1 [|a2 [|a3 rest]]]]; try discriminate Hlen.
  cbn [adjustments_for nth array_set].
  fold (usable r0). fold (usable r1). fold (usable r2).
  destruct (usable r0), (usable r1), (usable r2); reflexivity.
Qed.

(** X11: for calibration bytes in 1..254 the sensitivity handed to the
    publisher lies strictly between 1/2 and 3/2 and grows strictly with the
    byte, so different bytes give different sensitivities. *)
Theorem sensitivity_bounds_monotone (v v' : Z) :
  1 <= v <= 254 ->
  1 <= v' <= 254 ->
  ((1 # 2) < f32_to_Q (asa_of_byte v) < (3 # 2))%Q
  /\ (v < v' -> (f32_to_Q (asa_of_byte v) < f32_to_Q (asa_of_byte v'))%Q).
Proof.
  intros Hv Hv'.
  destruct (asa_of_byte_exact v Hv) as [_ Ev].
  destruct (asa_of_byte_exact v' Hv') as [_ Ev'].
  rewrite Ev, Ev'. unfold sensitivity_Q.
  unfold Qlt, Qdiv, Qmult, Qplus, Qinv, inject_Z. cbn.
  repeat split; lia.
Qed.

End CalibrationExtras.

Section MeasureExtras.

Context {hdr : Header}.

(** ** Streams of frames *)

Lemma _measure_run (timestamp_sample : Z) (data : ak09916_regs) (w : World) :
  _measure timestamp_sample data w
  = (tt, emits (if Z.land (st1 data) AK09916_ST1_DRDY =? 0 then []
                else [MagSetExternal (parent_is_external w);
                      MagSetTemperature (parent_last_temperature w);
                      MagUpdate timestamp_sample (y data) (x data) (- z data)])
               w).
Proof.
  unfold _measure.
  destruct (Z.land (st1 data) AK09916_ST1_DRDY =? 0).
  - now rewrite emits_nil.
  - unfold bind, emit.
    cbn [emits parent_is_external parent_last_temperature].
    rewrite !emits_emits. reflexivity.
Qed.

Lemma samples_app (l1 l2 : list Event) :
  samples (l1 ++ l2) = samples l1 ++ samples l2.
Proof.
  induction l1 as [|e l1 IH]; [reflexivity|].
  destruct e; cbn [app samples]; rewrite IH; reflexivity.
Qed.

Lemma measure_seq_run (frames : list (Z * ak09916_regs)) :
  forall w : World,
    exists l,
      measure_seq frames w = (tt, emits l w)
      /\ samples l
         = map (fun f => (fst f, y (snd f), x (snd f), - z (snd f)))
               (ready_frames frames).
Proof.
  induction frames as [|[t data] frames IH]; intros w.
  - exists []. split; [cbn; now rewrite emits_nil | reflexivity].
  - cbn [measure_seq]. unfold bind. rewrite _measure_run.
    match goal with |- context [measure_seq frames ?w1] =>
      destruct (IH w1) as (l & E & Hs) end.
    rewrite E, emits_emits. eexists. split; [reflexivity|].
    rewrite samples_app, Hs. unfold ready_frames. cbn [filter snd fst].
    destruct (Z.land (st1 data) AK09916_ST1_DRDY =? 0); reflexivity.
Qed.

(** X12: fed a stream of frames, [_measure] publishes exactly the frames
    whose data-ready flag is set, in their order, each once, as
    [(timestamp, y, x, -z)]; frames that are not ready leave no trace. *)
Theorem measure_seq_publishes_ready_frames
    (frames : list (Z * ak09916_regs)) (w : World) :
  samples (events_of (measure_seq frames) w)
  = map (fun f => (fst f, y (snd f), x (snd f), - z (snd f)))
        (ready_frames frames)
  /\ count is_update (events_of (measure_seq frames) w)
     = length (ready_frames frames).
Proof.
  destruct (measure_seq_run frames w) as (l & E & Hs).
  rewrite (events_of_emits _ _ _ _ E). split; [exact Hs|].
  rewrite <- (length_map (fun f => (fst f, y (snd f), x (snd f), - z (snd f)))),
    <- Hs.
  clear. induction l as [|e l IH]; [reflexivity|].
  rewrite count_cons. destruct e; cbn [is_update samples length]; lia.
Qed.

End MeasureExtras.

Lemma read_adjustments_footprint_witness :
  @bridge_after datasheet true
    (events_of (@ak09916_read_adjustments datasheet) (fuse_world 1 128 254))
  = false.
Proof.
  destruct (@read_adjustments_footprint datasheet true (fuse_world 1 128 254)
              datasheet_proxy_regs_distinct) as (_ & _ & _ & Ha).
  exact Ha.
Defined.

Lemma adjustments_for_ignores_initial_array_witness :
  adjustments_for 3 0 [128; 0; 130]
    [S754_infinity false; S754_zero true; S754_nan] = None.
Proof.
  rewrite (adjustments_for_ignores_initial_array 128 0 130
             [S754_infinity false; S754_zero true; S754_nan]).
  - reflexivity.
  - reflexivity.
Defined.

Lemma sensitivity_bounds_monotone_witness :
  (f32_to_Q (asa_of_byte 1) < f32_to_Q (asa_of_byte 254))%Q.
Proof.
  destruct (sensitivity_bounds_monotone 1 254) as (_ & Hm).
  - lia.
  - lia.
  - apply Hm. lia.
Defined.

